(** * Role Matrix dashboard (src/main.py): shallow embedding and properties

    The embedding follows the Python source function by function.

    - A Python [str] is a list of Unicode code points ([list N]), so that
      [len], slicing and justification count characters as Python does.
      String literals are written as in the source and decoded from UTF-8
      by [u].
    - Python integers are [Z].  The two places where the source produces a
      float from integers ([len(roles) / items_per_page] and
      [len(role.members) / total_members]) are modelled by exact rationals
      ([Q]); [int] on such a value truncates toward zero and [math.ceil]
      is the rational ceiling.
    - A coroutine that talks to the platform is a computation in the monad
      [M]: it appends the requests it makes to a trace and either returns a
      value or raises a Python exception. *)

From Stdlib Require Import ZArith QArith Qround List Ascii String Bool Lia.
From Stdlib Require Import DecimalString HexadecimalString DecimalZ.
Import ListNotations.
Open Scope Z_scope.

(* ====================================================================== *)
(** ** Python primitives used by the source *)

Module Py.

Definition char := N.
Definition str := list char.

(** UTF-8 decoding of a literal, byte by byte: [(cur, need, out)] is the code
    point being assembled, the number of continuation bytes still expected
    and the code points decoded so far (most recent first). *)
Definition utf8_step (st : N * nat * list N) (b : N) : N * nat * list N :=
  let '(cur, need, out) := st in
  match need with
  | O =>
      if (b <? 128)%N then (0%N, O, b :: out)
      else if (b <? 224)%N then ((b - 192)%N, 1%nat, out)
      else if (b <? 240)%N then ((b - 224)%N, 2%nat, out)
      else ((b - 240)%N, 3%nat, out)
  | S O => (0%N, O, (cur * 64 + (b - 128))%N :: out)
  | S k => ((cur * 64 + (b - 128))%N, k, out)
  end.

Definition u (s : string) : str :=
  let bytes := map N_of_ascii (list_ascii_of_string s) in
  let '(_, _, out) := fold_left utf8_step bytes (0%N, O, []) in
  rev out.

(** [str(n)] for an integer. *)
Definition str_of_int (z : Z) : str :=
  u (DecimalString.NilZero.string_of_int (Z.to_int z)).

(** [format(n, 'x')] for a non-negative integer: lowercase hexadecimal. *)
Definition hex_of_N (n : N) : str :=
  u (HexadecimalString.NilZero.string_of_uint (N.to_hex_uint n)).

(** [len(s)]. *)
Definition len {A} (l : list A) : Z := Z.of_nat (List.length l).

(** [s * n]: repetition; empty when [n <= 0]. *)
Definition mul {A} (s : list A) (n : Z) : list A :=
  List.concat (List.repeat s (Z.to_nat n)).

(** Index normalisation of a slice bound: a negative bound counts from the
    end, and the result is clamped to [0 .. len]. *)
Definition clamp (n : Z) (i : Z) : Z :=
  let i := if i <? 0 then i + n else i in
  if i <? 0 then 0 else if n <? i then n else i.

(** [l[start:stop]]. *)
Definition slice {A} (l : list A) (start stop : Z) : list A :=
  let n := len l in
  let a := clamp n start in
  let b := clamp n stop in
  firstn (Z.to_nat (b - a)) (skipn (Z.to_nat a) l).

(** [l[:stop]]. *)
Definition slice_to {A} (l : list A) (stop : Z) : list A := slice l 0 stop.

(** [sep.join(parts)]. *)
Fixpoint join (sep : str) (parts : list str) : str :=
  match parts with
  | [] => []
  | [p] => p
  | p :: rest => p ++ sep ++ join sep rest
  end.

(** [s.ljust(w, fill)] and [s.rjust(w, fill)]; the fill is one character,
    a space when the source gives none. *)
Definition ljust_with (s : str) (w : Z) (fill : str) : str :=
  s ++ mul fill (w - len s).
Definition rjust_with (s : str) (w : Z) (fill : str) : str :=
  mul fill (w - len s) ++ s.
Definition ljust (s : str) (w : Z) : str := ljust_with s w (u " ").
Definition rjust (s : str) (w : Z) : str := rjust_with s w (u " ").

Definition eqb (s t : str) : bool :=
  if list_eq_dec N.eq_dec s t then true else false.

Fixpoint startswith (s p : str) : bool :=
  match p, s with
  | [], _ => true
  | _ :: _, [] => false
  | c :: p', d :: s' => (c =? d)%N && startswith s' p'
  end.

(** [p in s]: substring test. *)
Fixpoint contains (p s : str) : bool :=
  startswith s p ||
  match s with
  | [] => false
  | _ :: s' => contains p s'
  end.

(** [s.replace(a, b)] for single-character [a] and [b]. *)
Definition replace (a b : char) (s : str) : str :=
  map (fun c => if (c =? a)%N then b else c) s.

(** Case mapping, on the ASCII letters (the identifiers it is applied to in
    the source, permission flag names, are ASCII; other code points are
    left unchanged by this model). *)
Definition is_upper (c : char) : bool := ((65 <=? c) && (c <=? 90))%N.
Definition is_lower (c : char) : bool := ((97 <=? c) && (c <=? 122))%N.
Definition to_upper (c : char) : char := if is_lower c then (c - 32)%N else c.
Definition to_lower (c : char) : char := if is_upper c then (c + 32)%N else c.

(** [s.upper()]. *)
Definition upper (s : str) : str := map to_upper s.

(** [s.title()]: a cased character is upper-cased when the previous character
    is not cased and lower-cased otherwise. *)
Fixpoint title_from (prev_cased : bool) (s : str) : str :=
  match s with
  | [] => []
  | c :: s' =>
      if is_upper c || is_lower c
      then (if prev_cased then to_lower c else to_upper c) :: title_from true s'
      else c :: title_from false s'
  end.

Definition title (s : str) : str := title_from false s.

(** [int(x)] for a real [x]: truncation toward zero. *)
Definition int_of_Q (q : Q) : Z := Z.quot (Qnum q) (Zpos (Qden q)).

(** [math.ceil(x)]. *)
Definition ceil (q : Q) : Z := Qceiling q.

(** [a / b] on integers (true division); [ZeroDivisionError] is not modelled
    here, the callers divide by a constant or guard the divisor. *)
Definition truediv (a b : Z) : Q := inject_Z a / inject_Z b.


(** Exceptions the modelled code can raise. *)
Inductive exn :=
| IndexError
| AttributeError
| ValueError.

(** The result of running a piece of Python: a value or an exception. *)
Inductive outcome (A : Type) :=
| Returned (a : A)
| Raised (e : exn).
Arguments Returned {A} a.
Arguments Raised {A} e.

(** [l[i]] for [i >= 0] or, counted from the end, [i < 0]. *)
Definition index {A} (l : list A) (i : Z) : outcome A :=
  let j := if i <? 0 then i + len l else i in
  if j <? 0 then Raised IndexError
  else match nth_error l (Z.to_nat j) with
       | Some x => Returned x
       | None => Raised IndexError
       end.

(** Attribute access on a value that may be [None]. *)
Definition deref {A} (o : option A) : outcome A :=
  match o with
  | Some x => Returned x
  | None => Raised AttributeError
  end.

(** Code points back to a byte string, for the ASCII range. *)
Fixpoint to_ascii_string (s : str) : option string :=
  match s with
  | [] => Some EmptyString
  | c :: s' =>
      if (c <? 128)%N then
        match to_ascii_string s' with
        | Some r => Some (String (ascii_of_N c) r)
        | None => None
        end
      else None
  end.

(** [int(s)] on the decimal literals that [str] produces for integers: an
    optional minus sign and ASCII digits.  The strings it is applied to in
    the source are option values, which were built with [str(role.id)]. *)
Definition int_of_str (s : str) : outcome Z :=
  match to_ascii_string s with
  | Some a =>
      match DecimalString.NilZero.int_of_string a with
      | Some d => Returned (Z.of_int d)
      | None => Raised ValueError
      end
  | None => Raised ValueError
  end.

End Py.

Import Py.

(* ====================================================================== *)
(** ** UI configuration and helper functions *)

Module UIStyles.
Definition BG_COLOR : Z := 0x2b2d31.
Definition ESC : str := [27%N].
Definition ANSI_RESET : str := ESC ++ u "[0m".
Definition ANSI_BOLD : str := ESC ++ u "[1m".
Definition ANSI_BLUE : str := ESC ++ u "[34m".
Definition ANSI_CYAN : str := ESC ++ u "[36m".
Definition ANSI_GREEN : str := ESC ++ u "[32m".
Definition ANSI_MAGENTA : str := ESC ++ u "[35m".
Definition ANSI_RED : str := ESC ++ u "[31m".
Definition ANSI_WHITE : str := ESC ++ u "[37m".
Definition ANSI_YELLOW : str := ESC ++ u "[33m".
End UIStyles.

(** The two block glyphs of the bar. *)
Definition FULL_BLOCK : str := u "█".
Definition LIGHT_SHADE : str := u "░".

Definition create_progress_bar (percentage : Q) (length : Z) : str :=
  let filled := int_of_Q (inject_Z length * percentage) in
  let empty := length - filled in
  mul FULL_BLOCK filled ++ mul LIGHT_SHADE empty.

Definition format_ansi_row (role_name : str) (member_count : Z)
    (percentage : Q) (is_hoisted : bool) : str :=
  let name_display :=
    if 18 <? len role_name then slice_to role_name 18 ++ u ".."
    else ljust role_name 20 in
  let name_color := UIStyles.ANSI_WHITE in
  let name_color := if is_hoisted then UIStyles.ANSI_CYAN else name_color in
  let name_color :=
    if contains (u "Admin") role_name || contains (u "Mod") role_name
    then UIStyles.ANSI_MAGENTA else name_color in
  let bar := create_progress_bar percentage 8 in
  name_color ++ name_display ++ UIStyles.ANSI_RESET ++ u " "
  ++ UIStyles.ANSI_BLUE ++ u "│" ++ UIStyles.ANSI_RESET ++ u " "
  ++ UIStyles.ANSI_YELLOW ++ rjust (str_of_int member_count) 3
  ++ UIStyles.ANSI_RESET ++ u " "
  ++ UIStyles.ANSI_GREEN ++ bar ++ UIStyles.ANSI_RESET.

(* ====================================================================== *)
(** ** Objects of the host library, with the attributes the source reads *)

Module Role.
Record t := {
  id : Z;
  name : str;
  members : list Z;                 (* the members holding the role *)
  permissions : list (str * bool);  (* iteration order: (flag, value) *)
  hoist : bool;
  mentionable : bool;
  color : Z;                        (* [role.color.value] *)
  created_at : Q                    (* [role.created_at.timestamp()] *)
}.

(** [role.permissions.administrator]: the value of that flag. *)
Definition administrator (r : t) : bool :=
  existsb (fun p => eqb (fst p) (u "administrator") && snd p) (permissions r).

(** [role.mention]. *)
Definition mention (r : t) : str := u "<@&" ++ str_of_int (id r) ++ u ">".

(** [str(role.color)]: ['#{:0>6x}'.format(value)]. *)
Definition color_str (r : t) : str :=
  u "#" ++ rjust_with (hex_of_N (Z.to_N (color r))) 6 (u "0").
End Role.

Module Guild.
Record t := {
  name : str;
  roles : list Role.t;
  member_count : Z;
  icon : option str                 (* [guild.icon.url] when there is one *)
}.

(** [guild.get_role(role_id)]: the role with that id, or [None]. *)
Definition get_role (g : t) (role_id : Z) : option Role.t :=
  find (fun r => Role.id r =? role_id) (roles g).
End Guild.

Module Embed.
Record field := { fname : str; fvalue : str; inline : bool }.
Record t := {
  title : option str;
  description : option str;
  color : Z;
  author : option (str * option str);   (* name, icon_url *)
  fields : list field;
  image : option str;
  footer : option str
}.

Definition make (title description : option str) (color : Z) : t :=
  {| title := title; description := description; color := color;
     author := None; fields := []; image := None; footer := None |}.
Definition set_author (e : t) (name : str) (icon_url : option str) : t :=
  {| title := title e; description := description e; color := color e;
     author := Some (name, icon_url); fields := fields e;
     image := image e; footer := footer e |}.
Definition set_description (e : t) (d : str) : t :=
  {| title := title e; description := Some d; color := color e;
     author := author e; fields := fields e;
     image := image e; footer := footer e |}.
Definition add_field (e : t) (name value : str) (inline : bool) : t :=
  {| title := title e; description := description e; color := color e;
     author := author e;
     fields := fields e ++ [{| fname := name; fvalue := value; inline := inline |}];
     image := image e; footer := footer e |}.
Definition set_image (e : t) (url : str) : t :=
  {| title := title e; description := description e; color := color e;
     author := author e; fields := fields e;
     image := Some url; footer := footer e |}.
Definition set_footer (e : t) (text : str) : t :=
  {| title := title e; description := description e; color := color e;
     author := author e; fields := fields e;
     image := image e; footer := Some text |}.
End Embed.

Inductive ButtonStyle := primary | secondary.

Record Button := {
  label : str;
  style : ButtonStyle;
  disabled : bool;
  custom_id : str
}.

Definition set_disabled (b : Button) (d : bool) : Button :=
  {| label := label b; style := style b; disabled := d; custom_id := custom_id b |}.
Definition set_label (b : Button) (l : str) : Button :=
  {| label := l; style := style b; disabled := disabled b; custom_id := custom_id b |}.

Record SelectOption := {
  opt_label : str;
  opt_value : str;
  opt_description : str;
  opt_emoji : str
}.

Definition nl : str := [10%N].

Definition EVERYONE : str := u "@everyone".

(* ====================================================================== *)
(** ** Interactive components *)

Module RoleDetailSelect.
Record t := {
  placeholder : str;
  min_values : Z;
  max_values : Z;
  options : list SelectOption;
  values : list str                 (* filled in by the platform on selection *)
}.

Definition option_of (role : Role.t) : SelectOption :=
  {| opt_label := Role.name role;
     opt_value := str_of_int (Role.id role);
     opt_description :=
       u "ID: " ++ str_of_int (Role.id role) ++ u " • "
       ++ str_of_int (len (Role.members role)) ++ u " members";
     opt_emoji := if Role.administrator role then u "🛡️" else u "🏷️" |}.

(** The loop of [__init__]: [continue] on the pseudo-role, [append]
    otherwise. *)
Fixpoint collect (roles : list Role.t) (options : list SelectOption)
    : list SelectOption :=
  match roles with
  | [] => options
  | role :: rest =>
      if eqb (Role.name role) EVERYONE then collect rest options
      else collect rest (options ++ [option_of role])
  end.

Definition init (roles : list Role.t) : t :=
  let options := collect (slice_to roles 25) [] in
  {| placeholder := u "🔍 Inspect a specific role...";
     min_values := 1;
     max_values := 1;
     options := options;
     values := [] |}.

(** The platform stores the chosen option values before it runs the
    callback. *)
Definition select (self : t) (chosen : list str) : t :=
  {| placeholder := placeholder self; min_values := min_values self;
     max_values := max_values self; options := options self;
     values := chosen |}.

(** Lines 89-109 of [callback]: the drill-down embed of a role. *)
Definition detail_embed (role : Role.t) : Embed.t :=
  let embed :=
    Embed.make (Some (u "🔹 " ++ Role.name role))
               (Some (u "Detailed analysis for " ++ Role.mention role))
               (if negb (Role.color role =? 0) then Role.color role
                else UIStyles.BG_COLOR) in
  let perms :=
    map (fun p => title (replace 95%N 32%N (fst p)))
        (filter (fun p => snd p) (Role.permissions role)) in
  let perm_str := join nl (map (fun p => u "✅ " ++ p) (slice_to perms 8)) in
  let perm_str :=
    if 8 <? len perms
    then perm_str ++ nl ++ u "...and " ++ str_of_int (len perms - 8) ++ u " more"
    else perm_str in
  let embed :=
    Embed.add_field embed (u "🔑 Key Permissions")
      (u "```diff" ++ nl
       ++ (match perm_str with [] => u "No special perms" | _ => perm_str end)
       ++ nl ++ u "```") true in
  let stats :=
    u "**Hoisted:** " ++ (if Role.hoist role then u "Yes" else u "No") ++ nl
    ++ u "**Mentionable:** "
    ++ (if Role.mentionable role then u "Yes" else u "No") ++ nl
    ++ u "**Created:** <t:" ++ str_of_int (int_of_Q (Role.created_at role))
    ++ u ":R>" ++ nl
    ++ u "**Color Hex:** " ++ Role.color_str role in
  Embed.add_field embed (u "📊 Configuration") stats true.
End RoleDetailSelect.

Module PaginationView.
Record t := {
  timeout : Z;
  roles : list Role.t;
  author_id : Z;
  current_page : Z;
  items_per_page : Z;
  total_pages : Z;
  select : option RoleDetailSelect.t;   (* the item added by [add_item] *)
  prev_btn : Button;
  page_counter : Button;
  next_btn : Button
}.

Definition with_current_page (self : t) (p : Z) : t :=
  {| timeout := timeout self; roles := roles self;
     author_id := author_id self; current_page := p;
     items_per_page := items_per_page self; total_pages := total_pages self;
     select := select self; prev_btn := prev_btn self;
     page_counter := page_counter self; next_btn := next_btn self |}.

Definition with_buttons (self : t) (prev counter next : Button) : t :=
  {| timeout := timeout self; roles := roles self;
     author_id := author_id self; current_page := current_page self;
     items_per_page := items_per_page self; total_pages := total_pages self;
     select := select self; prev_btn := prev;
     page_counter := counter; next_btn := next |}.

Definition add_item (self : t) (item : RoleDetailSelect.t) : t :=
  {| timeout := timeout self; roles := roles self;
     author_id := author_id self; current_page := current_page self;
     items_per_page := items_per_page self; total_pages := total_pages self;
     select := Some item; prev_btn := prev_btn self;
     page_counter := page_counter self; next_btn := next_btn self |}.

Definition update_buttons (self : t) : t :=
  with_buttons self
    (set_disabled (prev_btn self) (current_page self =? 0))
    (set_label (page_counter self)
       (u "Page " ++ str_of_int (current_page self + 1) ++ u "/"
        ++ str_of_int (total_pages self)))
    (set_disabled (next_btn self) (current_page self =? total_pages self - 1)).

(** The buttons as their decorators declare them. *)
Definition prev_btn0 : Button :=
  {| label := u "◄ Previous"; style := secondary; disabled := false;
     custom_id := u "prev" |}.
Definition page_counter0 : Button :=
  {| label := u "Page 1/1"; style := primary; disabled := true;
     custom_id := u "counter" |}.
Definition next_btn0 : Button :=
  {| label := u "Next ►"; style := secondary; disabled := false;
     custom_id := u "next" |}.

Definition init (roles0 : list Role.t) (author : Z) : t :=
  let self_roles := filter (fun r => negb (eqb (Role.name r) EVERYONE)) roles0 in
  let self_roles := rev self_roles in
  let self_items_per_page := 10 in
  let self :=
    {| timeout := 60; roles := self_roles; author_id := author;
       current_page := 0;
       items_per_page := self_items_per_page;
       total_pages := ceil (truediv (len self_roles) self_items_per_page);
       select := None; prev_btn := prev_btn0;
       page_counter := page_counter0; next_btn := next_btn0 |} in
  let self := add_item self (RoleDetailSelect.init (roles self)) in
  update_buttons self.

(** Lines 138-140 of [generate_dashboard_embed]: the roles of the current
    page. *)
Definition page_roles (self : t) : list Role.t :=
  let start := current_page self * items_per_page self in
  let end_ := start + items_per_page self in
  slice (roles self) start end_.

Definition row_of (total_members : Z) (role : Role.t) : str :=
  let perc :=
    if 0 <? total_members
    then truediv (len (Role.members role)) total_members
    else 0%Q in
  format_ansi_row (Role.name role) (len (Role.members role)) perc
                  (Role.hoist role).

(** [now] is the reading of the clock,
    [datetime.datetime.now().timestamp()]. *)
Definition generate_dashboard_embed (self : t) (guild : Guild.t) (now : Q)
    : outcome Embed.t :=
  let page_roles := page_roles self in
  let total_members := Guild.member_count guild in
  let embed := Embed.make None None UIStyles.BG_COLOR in
  let embed :=
    Embed.set_author embed
      (u "SERVER ROLE MATRIX: " ++ upper (Guild.name guild))
      (Guild.icon guild) in
  let header :=
    UIStyles.ANSI_BOLD ++ u "ROLE NAME            │ MEM PREVALENCE"
    ++ UIStyles.ANSI_RESET in
  let rows := map (row_of total_members) page_roles in
  let ansi_block :=
    (u "```ansi" ++ nl ++ header ++ nl ++ mul (u "━") 35 ++ nl)
    ++ join nl rows ++ nl ++ u "```" in
  let embed := Embed.set_description embed ansi_block in
  let embed :=
    Embed.add_field embed (u "TOTAL ROLES")
      (u "**" ++ str_of_int (len (roles self)) ++ u "**") true in
  match index (roles self) 0 with
  | Raised e => Raised e
  | Returned highest =>
      let embed :=
        Embed.add_field embed (u "HIGHEST ROLE") (Role.mention highest) true in
      let embed :=
        Embed.add_field embed (u "UPDATED")
          (u "<t:" ++ str_of_int (int_of_Q now) ++ u ":R>") true in
      let embed :=
        Embed.set_image embed
          (u "https://media.discordapp.net/attachments/1000000000000000000/1000000000000000000/transparent_divider.png") in
      let embed :=
        Embed.set_footer embed (u "System ID: R-800 • Interactive Dashboard") in
      Returned embed
  end.
End PaginationView.

(* ====================================================================== *)
(** ** Requests to the platform and the monad of the coroutines *)

Record Interaction := {
  user_id : Z;                        (* [interaction.user.id] *)
  guild : Guild.t
}.

Inductive request :=
| Defer                                             (* response.defer() *)
| SendMessage (content : option str) (embed : option Embed.t)
              (ephemeral : bool)                    (* response.send_message *)
| EditMessage (embed : Embed.t) (view : PaginationView.t)
                                                    (* response.edit_message *)
| FollowupSend (content : option str) (embed : option Embed.t)
               (view : option PaginationView.t).    (* followup.send *)

(** A coroutine over the object [self : S]: it may change [self], issues
    requests in order and returns or raises. *)
Definition M (S A : Type) : Type := S -> S * list request * outcome A.

Definition ret {S A} (a : A) : M S A := fun s => (s, [], Returned a).

Definition bind {S A B} (m : M S A) (f : A -> M S B) : M S B :=
  fun s =>
    let '(s1, t1, r) := m s in
    match r with
    | Returned a => let '(s2, t2, r2) := f a s1 in (s2, t1 ++ t2, r2)
    | Raised e => (s1, t1, Raised e)
    end.

Definition get {S} : M S S := fun s => (s, [], Returned s).
Definition modify {S} (f : S -> S) : M S unit := fun s => (f s, [], Returned tt).
Definition await {S} (r : request) : M S unit := fun s => (s, [r], Returned tt).
Definition lift {S A} (o : outcome A) : M S A := fun s => (s, [], o).

Declare Scope py_scope.
Delimit Scope py_scope with py.
Notation "x <- m ;; k" := (bind m (fun x => k))
  (at level 61, m at next level, right associativity) : py_scope.
Notation "m ;; k" := (bind m (fun _ => k))
  (at level 61, right associativity) : py_scope.
Open Scope py_scope.

(* ====================================================================== *)
(** ** Callbacks and the command *)

Module Callbacks.
Import PaginationView.

Definition NOT_YOURS : str := u "This isn't your dashboard.".

(** [RoleDetailSelect.callback]. *)
Definition callback (interaction : Interaction) : M RoleDetailSelect.t unit :=
  self <- get ;;
  v <- lift (index (RoleDetailSelect.values self) 0) ;;
  role_id <- lift (int_of_str v) ;;
  let role := Guild.get_role (guild interaction) role_id in
  role <- lift (deref role) ;;
  let embed := RoleDetailSelect.detail_embed role in
  await (SendMessage None (Some embed) true).

(** [PaginationView.prev_btn]. *)
Definition prev_btn (interaction : Interaction) (now : Q)
    : M PaginationView.t unit :=
  self <- get ;;
  if negb (user_id interaction =? author_id self) then
    await (SendMessage (Some NOT_YOURS) None true)
  else
    modify (fun self => with_current_page self (current_page self - 1)) ;;
    modify update_buttons ;;
    self <- get ;;
    embed <- lift (generate_dashboard_embed self (guild interaction) now) ;;
    await (EditMessage embed self).

(** [PaginationView.page_counter]: a display button. *)
Definition page_counter (interaction : Interaction) : M PaginationView.t unit :=
  ret tt.

(** [PaginationView.next_btn]. *)
Definition next_btn (interaction : Interaction) (now : Q)
    : M PaginationView.t unit :=
  self <- get ;;
  if negb (user_id interaction =? author_id self) then
    await (SendMessage (Some NOT_YOURS) None true)
  else
    modify (fun self => with_current_page self (current_page self + 1)) ;;
    modify update_buttons ;;
    self <- get ;;
    embed <- lift (generate_dashboard_embed self (guild interaction) now) ;;
    await (EditMessage embed self).
End Callbacks.

(** The [roles] command.  It has no [self]; the state is [unit]. *)
Definition roles (interaction : Interaction) (now : Q) : M unit unit :=
  await Defer ;;
  let roles := Guild.roles (guild interaction) in
  match roles with
  | [] => await (FollowupSend (Some (u "No roles found!")) None None)
  | _ =>
      let view := PaginationView.init roles (user_id interaction) in
      embed <- lift (PaginationView.generate_dashboard_embed
                       view (guild interaction) now) ;;
      await (FollowupSend None (Some embed) (Some view))
  end.

(** Running a coroutine: the requests it made and how it ended. *)
Definition run {S A} (m : M S A) (s : S) : list request * outcome A :=
  let '(_, t, r) := m s in (t, r).
Definition final {S A} (m : M S A) (s : S) : S :=
  let '(s', _, _) := m s in s'.

(* ====================================================================== *)
(** ** Definitions used by the statements

    [spec_progress_bar] and [spec_total_pages] follow the words of the
    specification, to be compared with the code.  [check_line],
    [truncation_note], [listing] and [enabled_names] name sub-expressions of
    [RoleDetailSelect.detail_embed]; [detail_embed_fields] ties them to
    it. *)

(** Byte strings within the ASCII range. *)
Definition ascii7 (s : string) : Prop :=
  Forall (fun c => (N_of_ascii c < 128)%N) (list_ascii_of_string s).


(** The lines of the permissions field: a check mark before each listed
    name, and the note that closes a truncated list. *)
Definition check_line (p : str) : str := u "✅ " ++ p.
Definition truncation_note (k : Z) : str :=
  u "...and " ++ str_of_int k ++ u " more".

(** The permissions list before it is fenced: at most 8 checked lines, and
    the note when names were left out. *)
Definition listing (names : list str) : str :=
  let perm_str := join nl (map check_line (slice_to names 8)) in
  if 8 <? len names
  then perm_str ++ nl ++ truncation_note (len names - 8)
  else perm_str.

(** The human-readable names of the enabled permissions of a role:
    underscores to spaces, title case. *)
Definition enabled_names (role : Role.t) : list str :=
  map (fun p => title (replace 95%N 32%N (fst p)))
      (filter (fun p => snd p) (Role.permissions role)).

(** The specification's [total_pages]: [ceil(count(roles) / page_size)],
    minimum 1. *)
Definition spec_total_pages (count : Z) : Z :=
  Z.max 1 (ceil (truediv count 10)).

(** The parts of a table row, as [format_ansi_row] computes them: the
    colour chosen for the name, the name column, and what follows it. *)
Definition name_color (role_name : str) (is_hoisted : bool) : str :=
  if contains (u "Admin") role_name || contains (u "Mod") role_name
  then UIStyles.ANSI_MAGENTA
  else if is_hoisted then UIStyles.ANSI_CYAN else UIStyles.ANSI_WHITE.

Definition name_display (role_name : str) : str :=
  if 18 <? len role_name then slice_to role_name 18 ++ u ".."
  else ljust role_name 20.

Definition row_tail (member_count : Z) (percentage : Q) : str :=
  UIStyles.ANSI_RESET ++ u " "
  ++ UIStyles.ANSI_BLUE ++ u "│" ++ UIStyles.ANSI_RESET ++ u " "
  ++ UIStyles.ANSI_YELLOW ++ rjust (str_of_int member_count) 3
  ++ UIStyles.ANSI_RESET ++ u " "
  ++ UIStyles.ANSI_GREEN ++ create_progress_bar percentage 8
  ++ UIStyles.ANSI_RESET.

(** The width of a row whose count fits three digits: colour codes
    included. *)
Definition ROW_WIDTH : Z := 71.

(** The test of the two constructors on a role: it is not the pseudo-role. *)
Definition is_listed (r : Role.t) : bool := negb (eqb (Role.name r) EVERYONE).

(* ====================================================================== *)
(** ** Sample guilds, for the concrete instances *)

Module Sample.
Definition flag (name : string) (value : bool) : str * bool := (u name, value).

Definition role (i : Z) (name : string) (perms : list (str * bool)) : Role.t :=
  {| Role.id := i; Role.name := u name; Role.members := [11; 12];
     Role.permissions := perms; Role.hoist := false;
     Role.mentionable := true; Role.color := 0;
     Role.created_at := 1700000000 # 1 |}.

Definition everyone : Role.t :=
  role 1 "@everyone" [flag "view_channel" true; flag "administrator" false].

Definition member_role (k : nat) : Role.t :=
  role (100 + Z.of_nat k) "Member" [flag "view_channel" true].

(** An administrator role with 12 enabled permissions (and two that are
    off). *)
Definition admin12 : Role.t :=
  role 500 "Admin"
    [flag "create_instant_invite" true; flag "kick_members" true;
     flag "ban_members" true; flag "administrator" true;
     flag "manage_channels" true; flag "manage_guild" true;
     flag "add_reactions" false; flag "view_audit_log" true;
     flag "priority_speaker" false; flag "stream" true;
     flag "view_channel" true; flag "send_messages" true;
     flag "send_tts_messages" true; flag "manage_messages" true].

(** A role with every permission off. *)
Definition bare : Role.t :=
  role 600 "Guest" [flag "view_channel" false; flag "administrator" false].

Definition guild_of (rs : list Role.t) : Guild.t :=
  {| Guild.name := u "Astra"; Guild.roles := rs;
     Guild.member_count := 32; Guild.icon := None |}.

(** Roles come lowest first, the pseudo-role at the bottom. *)
Definition only_everyone : Guild.t := guild_of [everyone].
Definition guild23 : Guild.t :=
  guild_of (everyone :: map member_role (seq 1 23)).
Definition staffed : Guild.t := guild_of [everyone; bare; admin12].
(** [staffed] once the administrator role has been deleted. *)
Definition after_delete : Guild.t := guild_of [everyone; bare].

(** The selector of a dashboard made for [staffed], with one option
    chosen. *)
Definition chosen (value : string) : RoleDetailSelect.t :=
  RoleDetailSelect.select
    (RoleDetailSelect.init
       (PaginationView.roles (PaginationView.init (Guild.roles staffed) 7)))
    [u value].
End Sample.

(* ====================================================================== *)
(** ** Properties of the Python primitives *)

Lemma len_nonneg {A} (l : list A) : 0 <= len l.
Proof. unfold len. lia. Qed.

Lemma len_app {A} (l1 l2 : list A) : len (l1 ++ l2) = len l1 + len l2.
Proof. unfold len. rewrite length_app. lia. Qed.

(** Repeating a one-character string. *)
Lemma mul_single {A} (c : A) (n : Z) : mul [c] n = repeat c (Z.to_nat n).
Proof.
  unfold mul. induction (Z.to_nat n) as [|k IH]; simpl; [reflexivity|].
  now rewrite IH.
Qed.


(** On a non-negative rational, [int] is the floor. *)
Lemma int_of_Q_floor (q : Q) : (0 <= q)%Q -> int_of_Q q = Qfloor q.
Proof.
  destruct q as [n d]. unfold Qle, int_of_Q, Qfloor. simpl. intros Hn.
  apply Z.quot_div_nonneg; lia.
Qed.

Lemma scaled_nonneg (p : Q) (n : Z) :
  (0 <= p)%Q -> 0 <= n -> (0 <= inject_Z n * p)%Q.
Proof.
  intros Hp Hn. apply Qmult_le_0_compat; [|exact Hp].
  unfold Qle. simpl. lia.
Qed.

(** The floor of [n * p] stays within [0 .. n] when [p] is in [0, 1]. *)
Lemma floor_scaled_bounds (p : Q) (n : Z) :
  (0 <= p)%Q -> (p <= 1)%Q -> 0 <= n ->
  0 <= Qfloor (inject_Z n * p) <= n.
Proof.
  intros Hp0 Hp1 Hn. destruct p as [a d].
  unfold Qle in Hp0, Hp1. simpl in Hp0, Hp1.
  unfold Qfloor, Qmult, inject_Z. simpl.
  split.
  - apply Z.div_pos; nia.
  - apply Z.div_le_upper_bound; nia.
Qed.

(** [math.ceil(n / 10)] in integer arithmetic. *)
Lemma ceil_truediv_10 (n : Z) : ceil (truediv n 10) = (n + 9) / 10.
Proof.
  unfold ceil, truediv, Qceiling, Qfloor, Qdiv, Qmult, Qinv, Qopp, inject_Z.
  simpl. Z.to_euclidean_division_equations. lia.
Qed.

(* ====================================================================== *)
(** ** The progress bar *)




(* ====================================================================== *)
(** ** Pagination *)

Section Pagination.

Import PaginationView.

Lemma update_buttons_keeps (self : t) :
  roles (update_buttons self) = roles self
  /\ author_id (update_buttons self) = author_id self
  /\ current_page (update_buttons self) = current_page self
  /\ items_per_page (update_buttons self) = items_per_page self
  /\ total_pages (update_buttons self) = total_pages self.
Proof. repeat split. Qed.

(** What the constructor establishes. *)
Lemma init_fields (roles0 : list Role.t) (author : Z) :
  let self := init roles0 author in
  roles self = rev (filter (fun r => negb (eqb (Role.name r) EVERYONE)) roles0)
  /\ author_id self = author
  /\ current_page self = 0
  /\ items_per_page self = 10
  /\ total_pages self = ceil (truediv (len (roles self)) 10).
Proof. repeat split. Qed.

End Pagination.

(** C4, as stated, fails: the view the command builds for a guild that has
    the pseudo-role only holds no role, and its [total_pages] is
    [ceil(0/10) = 0], not the minimum of 1. *)
Lemma total_pages_empty_not_one :
  let self := PaginationView.init (Guild.roles Sample.only_everyone) 7 in
  len (PaginationView.roles self) = 0
  /\ PaginationView.total_pages self = 0
  /\ spec_total_pages (len (PaginationView.roles self)) = 1
  /\ PaginationView.total_pages self
     <> spec_total_pages (len (PaginationView.roles self)).
Proof. repeat split; vm_compute; congruence. Qed.

(** C4, amended: for every role count N >= 1, with 10 roles per page, the
    total page count is [ceil(N/10)], which is then [max(1, ceil(N/10))]. *)
Theorem total_pages_ceil (roles0 : list Role.t) (author : Z) :
  let self := PaginationView.init roles0 author in
  let N := len (PaginationView.roles self) in
  1 <= N ->
  PaginationView.total_pages self = (N + 9) / 10
  /\ PaginationView.total_pages self = spec_total_pages N
  /\ 1 <= PaginationView.total_pages self.
Proof.
  intros self N HN.
  destruct (init_fields roles0 author) as (_ & _ & _ & _ & Ht).
  fold self in Ht. fold N in Ht.
  unfold spec_total_pages. rewrite Ht, ceil_truediv_10.
  assert (1 <= (N + 9) / 10) by (apply Z.div_le_lower_bound; lia).
  repeat split; lia.
Qed.

Lemma total_pages_ceil_witness :
  let self := PaginationView.init (Guild.roles Sample.guild23) 7 in
  let N := len (PaginationView.roles self) in
  1 <= N
  /\ PaginationView.total_pages self = (N + 9) / 10
  /\ PaginationView.total_pages self = spec_total_pages N
  /\ 1 <= PaginationView.total_pages self.
Proof.
  intros self N.
  assert (HN : 1 <= N) by (vm_compute; congruence).
  split; [exact HN|].
  exact (total_pages_ceil (Guild.roles Sample.guild23) 7 HN).
Defined.

Section Slices.

Context {A : Type}.

(** A slice with bounds [0 <= a <= b] drops [a] elements and keeps at most
    [b - a]: Python clips the bounds to the length. *)
Lemma slice_forward (l : list A) (a b : Z) :
  0 <= a <= b ->
  slice l a b = firstn (Z.to_nat (b - a)) (skipn (Z.to_nat a) l).
Proof.
  intros Hab. unfold slice, clamp.
  pose proof (len_nonneg l) as Hn. unfold len in *.
  destruct (a <? 0) eqn:Ea; [apply Z.ltb_lt in Ea; lia|]. rewrite Ea.
  destruct (b <? 0) eqn:Eb; [apply Z.ltb_lt in Eb; lia|]. rewrite Eb.
  destruct (Z.of_nat (List.length l) <? a) eqn:Ena;
    destruct (Z.of_nat (List.length l) <? b) eqn:Enb;
    try apply Z.ltb_lt in Ena; try apply Z.ltb_ge in Ena;
    try apply Z.ltb_lt in Enb; try apply Z.ltb_ge in Enb; try lia.
  - rewrite Z.sub_diag. simpl.
    rewrite (skipn_all2 l) by lia. now rewrite firstn_nil.
  - rewrite !firstn_all2; try reflexivity; rewrite length_skipn; lia.
  - reflexivity.
Qed.

Lemma len_slice_le (l : list A) (a b : Z) :
  0 <= a <= b -> len (slice l a b) <= b - a.
Proof.
  intros Hab. rewrite slice_forward by assumption.
  unfold len. rewrite length_firstn. lia.
Qed.

(** Cutting a list into consecutive chunks of [k] elements and gluing them
    back gives the list, as soon as the chunks reach its end. *)
Lemma chunks_concat (k : nat) (n : nat) (l : list A) :
  (List.length l <= n * k)%nat ->
  List.concat (map (fun i => firstn k (skipn (i * k) l)) (seq 0 n)) = l.
Proof.
  revert l. induction n as [|n IH]; intros l Hl.
  - simpl in *. destruct l; [reflexivity | simpl in Hl; lia].
  - rewrite <- cons_seq, <- seq_shift, map_cons, map_map.
    transitivity (firstn k l ++ skipn k l); [|apply firstn_skipn].
    change (List.concat (?x :: ?r)) with (x ++ List.concat r).
    f_equal.
    rewrite <- (IH (skipn k l)) by (rewrite length_skipn; simpl in Hl; lia).
    f_equal. apply map_ext. intros i.
    rewrite skipn_skipn. do 2 f_equal. simpl. lia.
Qed.

End Slices.

(** C5: in a view with 10 roles per page whose page count is
    [ceil(len(roles)/10)], the slice of every page index [i] with
    [0 <= i < total_pages] is [roles[i*10 : i*10+10]] clipped to the list, it
    has at most 10 roles, and the slices of the pages 0, 1, ...,
    [total_pages - 1], one after the other, are the role list itself. *)
Theorem page_slices_partition (self : PaginationView.t) :
  PaginationView.items_per_page self = 10 ->
  PaginationView.total_pages self
    = ceil (truediv (len (PaginationView.roles self)) 10) ->
  let R := PaginationView.roles self in
  let page i := PaginationView.page_roles (PaginationView.with_current_page self i) in
  (forall i, 0 <= i < PaginationView.total_pages self ->
     page i = firstn 10 (skipn (Z.to_nat (i * 10)) R)
     /\ len (page i) <= 10)
  /\ List.concat
       (map (fun i => page (Z.of_nat i))
            (seq 0 (Z.to_nat (PaginationView.total_pages self))))
     = R.
Proof.
  intros Hk Ht R page.
  assert (Hpage : forall i, 0 <= i ->
            page i = firstn 10 (skipn (Z.to_nat (i * 10)) R)).
  { intros i Hi. unfold page, PaginationView.page_roles. simpl.
    rewrite Hk, slice_forward by lia. fold R.
    replace (i * 10 + 10 - i * 10) with 10 by lia. reflexivity. }
  split.
  - intros i Hi. split; [apply Hpage; lia|].
    rewrite Hpage by lia. unfold len. rewrite length_firstn. lia.
  - rewrite ceil_truediv_10 in Ht. fold R in Ht.
    transitivity
      (List.concat
         (map (fun i => firstn 10 (skipn (i * 10) R))
              (seq 0 (Z.to_nat (PaginationView.total_pages self)))));
      [|apply chunks_concat].
    + f_equal. apply map_ext. intros i.
      rewrite Hpage by lia. do 2 f_equal. lia.
    + pose proof (len_nonneg R) as HR. unfold len in Ht, HR.
      assert (Z.of_nat (List.length R) <= 10 * PaginationView.total_pages self).
      { rewrite Ht. Z.to_euclidean_division_equations. lia. }
      lia.
Qed.

Lemma page_slices_partition_witness :
  let self := PaginationView.init (Guild.roles Sample.guild23) 7 in
  let R := PaginationView.roles self in
  let page i := PaginationView.page_roles (PaginationView.with_current_page self i) in
  PaginationView.total_pages self = 3
  /\ len (page 2) = 3
  /\ (forall i, 0 <= i < PaginationView.total_pages self ->
        page i = firstn 10 (skipn (Z.to_nat (i * 10)) R)
        /\ len (page i) <= 10)
  /\ List.concat
       (map (fun i => page (Z.of_nat i))
            (seq 0 (Z.to_nat (PaginationView.total_pages self))))
     = R.
Proof.
  intros self R page.
  split; [vm_compute; reflexivity|].
  split; [vm_compute; reflexivity|].
  apply (page_slices_partition self); reflexivity.
Defined.

(* ====================================================================== *)
(** ** [int(str(n))]: option values decode to the role identifiers *)

Section DecimalRoundtrip.

Lemma utf8_ascii_run (bytes out : list N) :
  Forall (fun b => (b < 128)%N) bytes ->
  fold_left utf8_step bytes (0%N, O, out) = (0%N, O, rev bytes ++ out).
Proof.
  intros H. revert out. induction H as [|b bytes Hb _ IH]; intros out.
  - reflexivity.
  - apply N.ltb_lt in Hb. simpl fold_left.
    rewrite Hb, IH. simpl rev. now rewrite <- app_assoc.
Qed.

(** On ASCII text [u] is the identity on the codes. *)
Lemma u_ascii7 (s : string) :
  ascii7 s -> u s = map N_of_ascii (list_ascii_of_string s).
Proof.
  intros H. unfold u.
  rewrite utf8_ascii_run by (apply Forall_map; exact H).
  now rewrite app_nil_r, rev_involutive.
Qed.

Lemma to_ascii_string_codes (s : string) :
  ascii7 s -> to_ascii_string (map N_of_ascii (list_ascii_of_string s)) = Some s.
Proof.
  unfold ascii7. induction s as [|c s IH]; intros H; simpl.
  - reflexivity.
  - inversion H as [|? ? Hc Hs]; subst.
    apply N.ltb_lt in Hc. rewrite Hc, (IH Hs).
    now rewrite ascii_N_embedding.
Qed.

Lemma ascii7_digits (d : Decimal.uint) :
  ascii7 (DecimalString.NilEmpty.string_of_uint d).
Proof.
  unfold ascii7. induction d; simpl; constructor; trivial; reflexivity.
Qed.

Lemma ascii7_decimal (z : Z) :
  ascii7 (DecimalString.NilZero.string_of_int (Z.to_int z)).
Proof.
  assert (Hu : forall d, ascii7 (DecimalString.NilZero.string_of_uint d)).
  { intros d. destruct d; try apply ascii7_digits.
    unfold ascii7. simpl. constructor; [reflexivity | constructor]. }
  destruct z as [|p|p].
  - exact (Hu Decimal.zero).
  - exact (Hu (Pos.to_uint p)).
  - constructor; [reflexivity | exact (Hu (Pos.to_uint p))].
Qed.

(** [int(str(n)) = n]. *)
Lemma int_of_str_of_int (z : Z) : int_of_str (str_of_int z) = Returned z.
Proof.
  unfold int_of_str, str_of_int.
  rewrite u_ascii7, to_ascii_string_codes by apply ascii7_decimal.
  rewrite DecimalString.NilZero.isi.
  - now rewrite DecimalZ.of_to.
  - destruct z; simpl; try discriminate.
    intros [= H]. now apply DecimalPos.Unsigned.to_uint_nonnil in H.
  - destruct z; simpl; try discriminate.
    intros [= H]. now apply DecimalPos.Unsigned.to_uint_nonnil in H.
Qed.

End DecimalRoundtrip.

(* ====================================================================== *)
(** ** The page controls *)

Section PageControls.

Import PaginationView.

Variables (self : PaginationView.t) (interaction : Interaction) (now : Q).
Hypothesis stranger : user_id interaction <> author_id self.

Lemma prev_btn_rejects :
  Callbacks.prev_btn interaction now self
  = (self, [SendMessage (Some Callbacks.NOT_YOURS) None true], Returned tt).
Proof.
  unfold Callbacks.prev_btn, bind, get.
  apply Z.eqb_neq in stranger. now rewrite stranger.
Qed.

Lemma next_btn_rejects :
  Callbacks.next_btn interaction now self
  = (self, [SendMessage (Some Callbacks.NOT_YOURS) None true], Returned tt).
Proof.
  unfold Callbacks.next_btn, bind, get.
  apply Z.eqb_neq in stranger. now rewrite stranger.
Qed.

End PageControls.

(** C6: when a user other than the creator of the dashboard activates
    Previous or Next, the view is left as it was (the page index with it), no
    edit of the public message is requested, and the only request is an
    ephemeral notice to that user. *)
Theorem page_controls_reject_strangers
    (self : PaginationView.t) (interaction : Interaction) (now : Q) :
  user_id interaction <> PaginationView.author_id self ->
  let notice := SendMessage (Some (u "This isn't your dashboard.")) None true in
  Callbacks.prev_btn interaction now self = (self, [notice], Returned tt)
  /\ Callbacks.next_btn interaction now self = (self, [notice], Returned tt)
  /\ PaginationView.current_page (final (Callbacks.prev_btn interaction now) self)
     = PaginationView.current_page self
  /\ PaginationView.current_page (final (Callbacks.next_btn interaction now) self)
     = PaginationView.current_page self.
Proof.
  intros Hu notice. unfold final.
  rewrite (prev_btn_rejects self interaction now Hu).
  rewrite (next_btn_rejects self interaction now Hu).
  repeat split.
Qed.

Lemma page_controls_reject_strangers_witness :
  let self := PaginationView.init (Guild.roles Sample.guild23) 7 in
  let interaction := {| user_id := 8; guild := Sample.guild23 |} in
  let notice := SendMessage (Some (u "This isn't your dashboard.")) None true in
  Callbacks.prev_btn interaction 0 self = (self, [notice], Returned tt)
  /\ Callbacks.next_btn interaction 0 self = (self, [notice], Returned tt)
  /\ PaginationView.current_page (final (Callbacks.prev_btn interaction 0) self)
     = PaginationView.current_page self
  /\ PaginationView.current_page (final (Callbacks.next_btn interaction 0) self)
     = PaginationView.current_page self.
Proof.
  intros self interaction.
  apply (page_controls_reject_strangers self interaction 0).
  simpl. lia.
Defined.

(** C7: after [update_buttons], Previous is disabled exactly when the page
    index is 0, Next is disabled exactly when it is [total_pages - 1], and the
    counter reads "Page {page_index+1}/{total_pages}"; the three depend on the
    page index and the page count only, and updating again changes
    nothing. *)
Theorem update_buttons_state (self : PaginationView.t) :
  let view := PaginationView.update_buttons self in
  let page := PaginationView.current_page self in
  let total := PaginationView.total_pages self in
  (disabled (PaginationView.prev_btn view) = true <-> page = 0)
  /\ (disabled (PaginationView.next_btn view) = true <-> page = total - 1)
  /\ label (PaginationView.page_counter view)
     = u "Page " ++ str_of_int (page + 1) ++ u "/" ++ str_of_int total
  /\ PaginationView.update_buttons view = view
  /\ (forall other,
        PaginationView.current_page other = page ->
        PaginationView.total_pages other = total ->
        let view' := PaginationView.update_buttons other in
        disabled (PaginationView.prev_btn view') = disabled (PaginationView.prev_btn view)
        /\ disabled (PaginationView.next_btn view') = disabled (PaginationView.next_btn view)
        /\ label (PaginationView.page_counter view') = label (PaginationView.page_counter view)).
Proof.
  intros view page total.
  split; [apply Z.eqb_eq|]. split; [apply Z.eqb_eq|].
  split; [reflexivity|]. split; [reflexivity|].
  intros other Hp Ht view'. unfold view', view.
  unfold PaginationView.update_buttons. cbn [PaginationView.prev_btn
    PaginationView.next_btn PaginationView.page_counter
    PaginationView.with_buttons disabled label set_disabled set_label].
  fold page total. now rewrite Hp, Ht.
Qed.

(* ====================================================================== *)
(** ** The role-detail selector *)

Section Selector.

Variables (self : RoleDetailSelect.t) (interaction : Interaction) (role_id : Z).
Hypothesis chosen : RoleDetailSelect.values self = [str_of_int role_id].

(** The role still exists: one ephemeral message with its panel. *)
Lemma callback_found (role : Role.t) :
  Guild.get_role (guild interaction) role_id = Some role ->
  Callbacks.callback interaction self
  = (self, [SendMessage None (Some (RoleDetailSelect.detail_embed role)) true],
     Returned tt).
Proof.
  intros Hrole. unfold Callbacks.callback, bind, get, lift, await.
  rewrite chosen. unfold index. cbn [Z.ltb Z.compare Z.to_nat nth_error].
  rewrite int_of_str_of_int, Hrole. reflexivity.
Qed.

(** The role is gone: [role.name] is read on [None]. *)
Lemma callback_stale :
  Guild.get_role (guild interaction) role_id = None ->
  Callbacks.callback interaction self = (self, [], Raised AttributeError).
Proof.
  intros Hrole. unfold Callbacks.callback, bind, get, lift, await.
  rewrite chosen. unfold index. cbn [Z.ltb Z.compare Z.to_nat nth_error].
  rewrite int_of_str_of_int, Hrole. reflexivity.
Qed.

End Selector.

(** The callback never reads who is acting. *)
Lemma callback_any_user (self : RoleDetailSelect.t) (g : Guild.t) (a b : Z) :
  Callbacks.callback {| user_id := a; guild := g |} self
  = Callbacks.callback {| user_id := b; guild := g |} self.
Proof. reflexivity. Qed.

(** The two fields of the panel of a role. *)
Lemma detail_embed_fields (role : Role.t) :
  exists stats,
    Embed.fields (RoleDetailSelect.detail_embed role)
    = [ {| Embed.fname := u "🔑 Key Permissions";
           Embed.fvalue :=
             u "```diff" ++ nl
             ++ (match listing (enabled_names role) with
                 | [] => u "No special perms"
                 | _ => listing (enabled_names role)
                 end)
             ++ nl ++ u "```";
           Embed.inline := true |};
        {| Embed.fname := u "📊 Configuration";
           Embed.fvalue := stats;
           Embed.inline := true |} ].
Proof.
  eexists. unfold RoleDetailSelect.detail_embed, listing, enabled_names,
    truncation_note, check_line.
  cbn [Embed.fields Embed.add_field Embed.make app]. reflexivity.
Qed.

Lemma enabled_names_length (role : Role.t) :
  len (enabled_names role)
  = len (filter (fun p => snd p) (Role.permissions role)).
Proof. unfold enabled_names, len. now rewrite length_map. Qed.

Lemma enabled_names_none (role : Role.t) :
  Forall (fun p => snd p = false) (Role.permissions role) ->
  enabled_names role = [].
Proof.
  unfold enabled_names. intros H.
  induction H as [|p ps Hp _ IH]; simpl; [reflexivity|].
  now rewrite Hp.
Qed.

(** C8: when the selected role has n > 8 enabled permissions, the callback
    sends one ephemeral panel whose permissions field lists the first 8
    human-readable names, one checked line each, followed by the note
    "...and {n-8} more"; with n = 12 the note is "...and 4 more". *)
Theorem detail_permissions_truncated
    (self : RoleDetailSelect.t) (interaction : Interaction)
    (role_id : Z) (role : Role.t) :
  RoleDetailSelect.values self = [str_of_int role_id] ->
  Guild.get_role (guild interaction) role_id = Some role ->
  let n := len (filter (fun p => snd p) (Role.permissions role)) in
  let names := enabled_names role in
  8 < n ->
  exists embed stats,
    Callbacks.callback interaction self
    = (self, [SendMessage None (Some embed) true], Returned tt)
    /\ Embed.fields embed
       = [ {| Embed.fname := u "🔑 Key Permissions";
              Embed.fvalue :=
                u "```diff" ++ nl
                ++ join nl (map check_line (firstn 8 names))
                ++ nl ++ truncation_note (n - 8)
                ++ nl ++ u "```";
              Embed.inline := true |};
           {| Embed.fname := u "📊 Configuration";
              Embed.fvalue := stats;
              Embed.inline := true |} ]
    /\ List.length (firstn 8 names) = 8%nat
    /\ (n = 12 -> truncation_note (n - 8) = u "...and 4 more").
Proof.
  intros Hv Hrole n names Hn.
  assert (Hlen : len names = n) by apply enabled_names_length.
  destruct (detail_embed_fields role) as [stats Hf].
  exists (RoleDetailSelect.detail_embed role), stats.
  split; [now apply callback_found with (role_id := role_id)|].
  split; [|split].
  - rewrite Hf. fold names. unfold listing. rewrite Hlen.
    replace (8 <? n) with true by (symmetry; now apply Z.ltb_lt).
    unfold slice_to. rewrite slice_forward by lia. simpl skipn.
    change (Z.to_nat (8 - 0)) with 8%nat.
    destruct (join nl (map check_line (firstn 8 names))
              ++ nl ++ truncation_note (n - 8)) as [|c rest] eqn:E.
    + apply app_eq_nil in E. destruct E as [_ E]. discriminate E.
    + rewrite <- E. now rewrite <- !app_assoc.
  - rewrite length_firstn. unfold len in Hlen. lia.
  - intros ->. reflexivity.
Qed.

Lemma detail_permissions_truncated_witness :
  let self := Sample.chosen "500" in
  let interaction := {| user_id := 8; guild := Sample.staffed |} in
  let n := len (filter (fun p => snd p) (Role.permissions Sample.admin12)) in
  let names := enabled_names Sample.admin12 in
  n = 12 /\
  firstn 8 names
  = [u "Create Instant Invite"; u "Kick Members"; u "Ban Members";
     u "Administrator"; u "Manage Channels"; u "Manage Guild";
     u "View Audit Log"; u "Stream"] /\
  exists embed stats,
    Callbacks.callback interaction self
    = (self, [SendMessage None (Some embed) true], Returned tt)
    /\ Embed.fields embed
       = [ {| Embed.fname := u "🔑 Key Permissions";
              Embed.fvalue :=
                u "```diff" ++ nl
                ++ join nl (map check_line (firstn 8 names))
                ++ nl ++ truncation_note (n - 8)
                ++ nl ++ u "```";
              Embed.inline := true |};
           {| Embed.fname := u "📊 Configuration";
              Embed.fvalue := stats;
              Embed.inline := true |} ]
    /\ List.length (firstn 8 names) = 8%nat
    /\ (n = 12 -> truncation_note (n - 8) = u "...and 4 more").
Proof.
  intros self interaction n names.
  split; [reflexivity|]. split; [reflexivity|].
  apply (detail_permissions_truncated self interaction 500 Sample.admin12).
  - reflexivity.
  - reflexivity.
  - reflexivity.
Defined.

(** C10: when every permission of the selected role is off, the permissions
    field of the panel shows "No special perms" in place of a list. *)
Theorem detail_no_permissions_placeholder
    (self : RoleDetailSelect.t) (interaction : Interaction)
    (role_id : Z) (role : Role.t) :
  RoleDetailSelect.values self = [str_of_int role_id] ->
  Guild.get_role (guild interaction) role_id = Some role ->
  Forall (fun p => snd p = false) (Role.permissions role) ->
  exists embed stats,
    Callbacks.callback interaction self
    = (self, [SendMessage None (Some embed) true], Returned tt)
    /\ Embed.fields embed
       = [ {| Embed.fname := u "🔑 Key Permissions";
              Embed.fvalue :=
                u "```diff" ++ nl ++ u "No special perms" ++ nl ++ u "```";
              Embed.inline := true |};
           {| Embed.fname := u "📊 Configuration";
              Embed.fvalue := stats;
              Embed.inline := true |} ].
Proof.
  intros Hv Hrole Hoff.
  destruct (detail_embed_fields role) as [stats Hf].
  exists (RoleDetailSelect.detail_embed role), stats.
  split; [now apply callback_found with (role_id := role_id)|].
  rewrite Hf, (enabled_names_none role Hoff). reflexivity.
Qed.

Lemma detail_no_permissions_placeholder_witness :
  let self := Sample.chosen "600" in
  let interaction := {| user_id := 8; guild := Sample.staffed |} in
  exists embed stats,
    Callbacks.callback interaction self
    = (self, [SendMessage None (Some embed) true], Returned tt)
    /\ Embed.fields embed
       = [ {| Embed.fname := u "🔑 Key Permissions";
              Embed.fvalue :=
                u "```diff" ++ nl ++ u "No special perms" ++ nl ++ u "```";
              Embed.inline := true |};
           {| Embed.fname := u "📊 Configuration";
              Embed.fvalue := stats;
              Embed.inline := true |} ].
Proof.
  intros self interaction.
  apply (detail_no_permissions_placeholder self interaction 600 Sample.bare).
  - reflexivity.
  - reflexivity.
  - repeat constructor.
Defined.

(** C9: the selector checks no identity.  Whoever acts, selecting an entry
    whose role exists sends the ephemeral detail panel; for a user other than
    the creator of a dashboard this is the same answer the creator gets,
    while Previous and Next answer that user with the rejection notice. *)
Theorem select_has_no_authorization
    (self : RoleDetailSelect.t) (g : Guild.t) (role_id : Z) (role : Role.t) :
  RoleDetailSelect.values self = [str_of_int role_id] ->
  Guild.get_role g role_id = Some role ->
  forall user : Z,
    let interaction := {| user_id := user; guild := g |} in
    let notice := SendMessage (Some (u "This isn't your dashboard.")) None true in
    Callbacks.callback interaction self
    = (self, [SendMessage None (Some (RoleDetailSelect.detail_embed role)) true],
       Returned tt)
    /\ forall (view : PaginationView.t) (now : Q),
         user <> PaginationView.author_id view ->
         Callbacks.callback interaction self
         = Callbacks.callback
             {| user_id := PaginationView.author_id view; guild := g |} self
         /\ Callbacks.prev_btn interaction now view = (view, [notice], Returned tt)
         /\ Callbacks.next_btn interaction now view = (view, [notice], Returned tt).
Proof.
  intros Hv Hrole user interaction notice. split.
  - now apply callback_found with (role_id := role_id).
  - intros view now Hu. split; [apply callback_any_user|]. split.
    + exact (prev_btn_rejects view interaction now Hu).
    + exact (next_btn_rejects view interaction now Hu).
Qed.

Lemma select_has_no_authorization_witness :
  let self := Sample.chosen "500" in
  let view := PaginationView.init (Guild.roles Sample.staffed) 7 in
  let interaction := {| user_id := 8; guild := Sample.staffed |} in
  let notice := SendMessage (Some (u "This isn't your dashboard.")) None true in
  8 <> PaginationView.author_id view
  /\ Callbacks.callback interaction self
     = (self, [SendMessage None (Some (RoleDetailSelect.detail_embed Sample.admin12)) true],
        Returned tt)
  /\ Callbacks.prev_btn interaction 0 view = (view, [notice], Returned tt)
  /\ Callbacks.next_btn interaction 0 view = (view, [notice], Returned tt).
Proof.
  intros self view interaction notice.
  assert (Hu : 8 <> PaginationView.author_id view) by (simpl; lia).
  destruct (select_has_no_authorization self Sample.staffed 500 Sample.admin12
              eq_refl eq_refl 8) as [Hpanel Hrest].
  destruct (Hrest view 0%Q Hu) as (_ & Hprev & Hnext).
  repeat split; assumption.
Defined.

(* ====================================================================== *)
(** ** The [roles] command *)

Lemma generate_dashboard_embed_empty
    (self : PaginationView.t) (g : Guild.t) (now : Q) :
  PaginationView.roles self = [] ->
  PaginationView.generate_dashboard_embed self g now = Raised IndexError.
Proof.
  intros H. unfold PaginationView.generate_dashboard_embed.
  rewrite H. reflexivity.
Qed.


(** A role list that holds the pseudo-role only passes the guard, and the
    command raises once it reads [self.roles[0]]. *)
Lemma roles_pseudo_role_only_raises (interaction : Interaction) (now : Q) :
  Guild.roles (guild interaction) <> [] ->
  Forall (fun r => Role.name r = EVERYONE) (Guild.roles (guild interaction)) ->
  run (roles interaction now) tt = ([Defer], Raised IndexError).
Proof.
  intros Hne Hall. unfold run, roles, bind, await, lift.
  destruct (Guild.roles (guild interaction)) as [|r rs] eqn:E; [congruence|].
  rewrite generate_dashboard_embed_empty; [reflexivity|].
  destruct (init_fields (r :: rs) (user_id interaction)) as (-> & _).
  replace (filter _ (r :: rs)) with (@nil Role.t); [reflexivity|].
  symmetry. clear E Hne.
  induction Hall as [|x xs Hx _ IH]; [reflexivity|].
  simpl. rewrite Hx. exact IH.
Qed.

(** C1, on the guild whose only role is "@everyone": the command defers,
    builds a view over no roles and raises [IndexError]; no message
    follows. *)
Theorem roles_only_everyone_raises (user : Z) (now : Q) :
  let interaction := {| user_id := user; guild := Sample.only_everyone |} in
  PaginationView.roles (PaginationView.init (Guild.roles Sample.only_everyone) user) = []
  /\ PaginationView.total_pages
       (PaginationView.init (Guild.roles Sample.only_everyone) user) = 0
  /\ run (roles interaction now) tt = ([Defer], Raised IndexError).
Proof.
  intros interaction. split; [reflexivity|]. split; [reflexivity|].
  apply roles_pseudo_role_only_raises.
  - discriminate.
  - repeat constructor.
Qed.

(** C2, on a dashboard made while the role 500 existed and used after the
    role was deleted: choosing its entry raises [AttributeError] and no
    notice is sent. *)
Theorem callback_deleted_role_raises (user : Z) :
  let interaction := {| user_id := user; guild := Sample.after_delete |} in
  In (u "500") (map opt_value (RoleDetailSelect.options (Sample.chosen "500")))
  /\ Guild.get_role Sample.after_delete 500 = None
  /\ run (Callbacks.callback interaction) (Sample.chosen "500")
     = ([], Raised AttributeError).
Proof.
  intros interaction. split; [vm_compute; auto|]. split; [reflexivity|].
  unfold run. rewrite (callback_stale _ interaction 500); reflexivity.
Qed.

(* ====================================================================== *)
(** ** Table rows *)

Lemma len_mul_single {A} (c : A) (n : Z) : len (mul [c] n) = Z.max 0 n.
Proof. rewrite mul_single. unfold len. rewrite repeat_length. lia. Qed.

Lemma len_firstn_ge {A} (l : list A) (n : nat) :
  Z.of_nat n <= len l -> len (firstn n l) = Z.of_nat n.
Proof. unfold len. rewrite length_firstn. lia. Qed.

(** The length of a bar, whatever the fraction. *)
Lemma create_progress_bar_len (p : Q) (length : Z) :
  len (create_progress_bar p length)
  = Z.max 0 (int_of_Q (inject_Z length * p))
    + Z.max 0 (length - int_of_Q (inject_Z length * p)).
Proof.
  unfold create_progress_bar, FULL_BLOCK, LIGHT_SHADE.
  change (u "█") with [9608%N]. change (u "░") with [9617%N].
  now rewrite len_app, !len_mul_single.
Qed.

Lemma create_progress_bar_len_unit (p : Q) (length : Z) :
  (0 <= p)%Q -> (p <= 1)%Q -> 0 <= length ->
  len (create_progress_bar p length) = length.
Proof.
  intros H0 H1 Hl. rewrite create_progress_bar_len.
  rewrite int_of_Q_floor by (apply scaled_nonneg; assumption).
  pose proof (floor_scaled_bounds p length H0 H1 Hl). lia.
Qed.


Lemma format_ansi_row_parts (role_name : str) (member_count : Z)
    (percentage : Q) (is_hoisted : bool) :
  format_ansi_row role_name member_count percentage is_hoisted
  = name_color role_name is_hoisted ++ name_display role_name
    ++ row_tail member_count percentage.
Proof.
  unfold format_ansi_row, name_color, name_display, row_tail.
  destruct (contains (u "Admin") role_name || contains (u "Mod") role_name);
    destruct is_hoisted; rewrite <- ?app_assoc; reflexivity.
Qed.

Lemma len_name_display (role_name : str) : len (name_display role_name) = 20.
Proof.
  unfold name_display. destruct (18 <? len role_name) eqn:E.
  - apply Z.ltb_lt in E. unfold slice_to.
    rewrite slice_forward by lia. simpl skipn.
    rewrite len_app, len_firstn_ge by (simpl; lia). reflexivity.
  - apply Z.ltb_ge in E. unfold ljust, ljust_with.
    change (u " ") with [32%N].
    rewrite len_app, len_mul_single. pose proof (len_nonneg role_name). lia.
Qed.

Lemma len_name_color (role_name : str) (is_hoisted : bool) :
  len (name_color role_name is_hoisted) = 5.
Proof.
  unfold name_color.
  destruct (contains (u "Admin") role_name || contains (u "Mod") role_name);
    destruct is_hoisted; reflexivity.
Qed.

(** X1: the name column of a row is always 20 characters wide: a name longer
    than 18 is cut to its first 18 characters followed by "..", any other name
    is padded with spaces on the right.  The colour before it is magenta when
    the name contains "Admin" or "Mod" (hoisted or not), else cyan for a
    hoisted role, else white; the rest of the row does not depend on the
    name. *)
Theorem format_ansi_row_name_column (role_name : str) (member_count : Z)
    (percentage : Q) (is_hoisted : bool) :
  format_ansi_row role_name member_count percentage is_hoisted
  = name_color role_name is_hoisted ++ name_display role_name
    ++ row_tail member_count percentage
  /\ len (name_display role_name) = 20
  /\ (18 < len role_name ->
      name_display role_name = firstn 18 role_name ++ u "..")
  /\ (len role_name <= 18 ->
      name_display role_name
      = role_name ++ repeat 32%N (Z.to_nat (20 - len role_name)))
  /\ (contains (u "Admin") role_name = true \/ contains (u "Mod") role_name = true ->
      name_color role_name is_hoisted = UIStyles.ANSI_MAGENTA)
  /\ (contains (u "Admin") role_name = false ->
      contains (u "Mod") role_name = false ->
      name_color role_name is_hoisted
      = if is_hoisted then UIStyles.ANSI_CYAN else UIStyles.ANSI_WHITE).
Proof.
  split; [apply format_ansi_row_parts|]. split; [apply len_name_display|].
  split; [|split].
  - intros H. unfold name_display.
    replace (18 <? len role_name) with true by (symmetry; now apply Z.ltb_lt).
    unfold slice_to. now rewrite slice_forward by lia.
  - intros H. unfold name_display.
    replace (18 <? len role_name) with false by (symmetry; now apply Z.ltb_ge).
    unfold ljust, ljust_with. change (u " ") with [32%N].
    now rewrite mul_single.
  - split.
    + intros H. unfold name_color.
      replace (contains (u "Admin") role_name || contains (u "Mod") role_name)
        with true; [reflexivity|].
      symmetry. apply orb_true_iff. exact H.
    + intros Ha Hm. unfold name_color. now rewrite Ha, Hm.
Qed.

(** Integers from 0 to 999 print with at most three digits. *)
Lemma str_of_int_small (c : Z) : 0 <= c <= 999 -> len (str_of_int c) <= 3.
Proof.
  intros Hc.
  assert (H : forallb (fun k => len (str_of_int (Z.of_nat k)) <=? 3)
                      (seq 0 1000) = true) by (vm_compute; reflexivity).
  rewrite forallb_forall in H.
  specialize (H (Z.to_nat c)).
  rewrite Z2Nat.id in H by lia.
  apply Z.leb_le, H, in_seq. lia.
Qed.

Lemma len_row_tail (member_count : Z) (percentage : Q) :
  0 <= member_count <= 999 -> (0 <= percentage)%Q -> (percentage <= 1)%Q ->
  len (row_tail member_count percentage) = 46.
Proof.
  intros Hc H0 H1. unfold row_tail, rjust, rjust_with.
  change (u " ") with [32%N].
  rewrite !len_app, len_mul_single, create_progress_bar_len_unit by (assumption || lia).
  pose proof (str_of_int_small member_count Hc).
  pose proof (len_nonneg (str_of_int member_count)).
  change (len UIStyles.ANSI_RESET) with 4.
  change (len UIStyles.ANSI_BLUE) with 5.
  change (len UIStyles.ANSI_YELLOW) with 5.
  change (len UIStyles.ANSI_GREEN) with 5.
  change (len [32%N]) with 1. change (len (u "│")) with 1.
  lia.
Qed.

Lemma len_format_ansi_row (role_name : str) (member_count : Z)
    (percentage : Q) (is_hoisted : bool) :
  0 <= member_count <= 999 -> (0 <= percentage)%Q -> (percentage <= 1)%Q ->
  len (format_ansi_row role_name member_count percentage is_hoisted) = 71.
Proof.
  intros Hc H0 H1.
  rewrite format_ansi_row_parts, !len_app, len_name_color, len_name_display.
  rewrite len_row_tail by assumption. reflexivity.
Qed.

(** X2: rows line up.  For a member count from 0 to 999 and a fraction in
    [0,1], every row has the same length, 71 code points, whatever the name
    and the flags. *)
Theorem format_ansi_row_width (role_name : str) (member_count : Z)
    (percentage : Q) (is_hoisted : bool) :
  0 <= member_count <= 999 -> (0 <= percentage)%Q -> (percentage <= 1)%Q ->
  len (format_ansi_row role_name member_count percentage is_hoisted) = ROW_WIDTH.
Proof.
  intros Hc H0 H1. now apply len_format_ansi_row.
Qed.

Lemma format_ansi_row_width_witness :
  len (format_ansi_row (u "Community Moderators of the Year") 42 (3 # 4) true)
  = ROW_WIDTH.
Proof.
  apply format_ansi_row_width.
  - lia.
  - unfold Qle; simpl; lia.
  - unfold Qle; simpl; lia.
Defined.



(* ====================================================================== *)
(** ** The options of the selector *)

Lemma eqb_eq (s t : str) : eqb s t = true <-> s = t.
Proof.
  unfold eqb. destruct (list_eq_dec N.eq_dec s t); split; congruence.
Qed.

Lemma is_listed_name (r : Role.t) :
  is_listed r = true <-> Role.name r <> EVERYONE.
Proof.
  unfold is_listed. rewrite negb_true_iff. split.
  - intros H E. apply eqb_eq in E. congruence.
  - intros H. destruct (eqb (Role.name r) EVERYONE) eqn:E; [|reflexivity].
    apply eqb_eq in E. contradiction.
Qed.

(** The loop of the constructor, as a filter and a map. *)
Lemma collect_filter (roles : list Role.t) (acc : list SelectOption) :
  RoleDetailSelect.collect roles acc
  = acc ++ map RoleDetailSelect.option_of (filter is_listed roles).
Proof.
  revert acc. induction roles as [|r roles IH]; intros acc; simpl.
  - now rewrite app_nil_r.
  - unfold is_listed at 1. destruct (eqb (Role.name r) EVERYONE); simpl.
    + apply IH.
    + rewrite IH, <- app_assoc. reflexivity.
Qed.

Lemma init_options (roles : list Role.t) :
  RoleDetailSelect.options (RoleDetailSelect.init roles)
  = map RoleDetailSelect.option_of (filter is_listed (firstn 25 roles)).
Proof.
  unfold RoleDetailSelect.init. cbn [RoleDetailSelect.options].
  rewrite collect_filter. unfold slice_to.
  rewrite slice_forward by lia. reflexivity.
Qed.

Lemma length_filter_le {A} (f : A -> bool) (l : list A) :
  (List.length (filter f l) <= List.length l)%nat.
Proof.
  induction l as [|x l IH]; simpl; [lia|]. destruct (f x); simpl; lia.
Qed.

(** X5: the selector offers the roles among the first 25 it is given that
    are not named "@everyone", one option each and in the same order; so it
    has at most 25 options, and every option carries the name of its role and
    a value that [int] reads back as the identifier of that role. *)
Theorem select_options_of_first_25 (roles : list Role.t) :
  let options := RoleDetailSelect.options (RoleDetailSelect.init roles) in
  options = map RoleDetailSelect.option_of (filter is_listed (firstn 25 roles))
  /\ (List.length options <= 25)%nat
  /\ (forall o, In o options ->
        exists role,
          In role (firstn 25 roles)
          /\ Role.name role <> EVERYONE
          /\ opt_label o = Role.name role
          /\ int_of_str (opt_value o) = Returned (Role.id role))
  /\ (forall role, In role (firstn 25 roles) -> Role.name role <> EVERYONE ->
        In (RoleDetailSelect.option_of role) options).
Proof.
  intros options. unfold options. rewrite init_options.
  split; [reflexivity|]. split; [|split].
  - rewrite length_map.
    pose proof (length_filter_le is_listed (firstn 25 roles)).
    pose proof (firstn_le_length 25 roles). lia.
  - intros o Ho. apply in_map_iff in Ho. destruct Ho as (role & <- & Hr).
    apply filter_In in Hr. destruct Hr as [Hin Hl].
    exists role. split; [exact Hin|]. split; [now apply is_listed_name|].
    split; [reflexivity|]. apply int_of_str_of_int.
  - intros role Hin Hn. apply in_map, filter_In.
    split; [exact Hin | now apply is_listed_name].
Qed.

(* ====================================================================== *)
(** ** From the dashboard to the detail panel *)

(** With distinct identifiers, [get_role] finds each role of the guild by its
    own identifier. *)
Lemma get_role_own_id (g : Guild.t) (role : Role.t) :
  NoDup (map Role.id (Guild.roles g)) ->
  In role (Guild.roles g) ->
  Guild.get_role g (Role.id role) = Some role.
Proof.
  unfold Guild.get_role. induction (Guild.roles g) as [|r rs IH]; intros Hnd Hin.
  - destruct Hin.
  - simpl in Hnd. inversion Hnd as [|? ? Hnotin Hnd']; subst. simpl.
    destruct Hin as [-> | Hin].
    + now rewrite Z.eqb_refl.
    + destruct (Role.id r =? Role.id role) eqn:E.
      * apply Z.eqb_eq in E. exfalso. apply Hnotin. rewrite E.
        now apply in_map.
      * now apply IH.
Qed.

Lemma firstn_In {A} (n : nat) (l : list A) (x : A) :
  In x (firstn n l) -> In x l.
Proof.
  intros H. rewrite <- (firstn_skipn n l). apply in_or_app. now left.
Qed.

(** The roles a view holds are roles of the list it was made from. *)
Lemma init_roles_In (roles0 : list Role.t) (author : Z) (role : Role.t) :
  In role (PaginationView.roles (PaginationView.init roles0 author)) <->
  In role roles0 /\ Role.name role <> EVERYONE.
Proof.
  destruct (init_fields roles0 author) as (-> & _).
  rewrite <- in_rev, filter_In.
  pose proof (is_listed_name role) as H. unfold is_listed in H.
  split; intros [H1 H2]; (split; [exact H1 | now apply H]).
Qed.

(** X6: in a guild whose roles have distinct identifiers, every entry of the
    selector of a dashboard made from that guild can be chosen, by any user:
    the callback finds the role, raises nothing, and answers with one
    ephemeral message that carries the panel of the role the entry names. *)
Theorem fresh_dashboard_selection_resolves
    (g : Guild.t) (author user : Z) (sel : RoleDetailSelect.t) (o : SelectOption) :
  NoDup (map Role.id (Guild.roles g)) ->
  PaginationView.select (PaginationView.init (Guild.roles g) author) = Some sel ->
  In o (RoleDetailSelect.options sel) ->
  exists role,
    In role (Guild.roles g)
    /\ Role.name role = opt_label o
    /\ Role.name role <> EVERYONE
    /\ Callbacks.callback {| user_id := user; guild := g |}
         (RoleDetailSelect.select sel [opt_value o])
       = (RoleDetailSelect.select sel [opt_value o],
          [SendMessage None (Some (RoleDetailSelect.detail_embed role)) true],
          Returned tt).
Proof.
  intros Hnd Hsel Ho.
  assert (Hs : sel = RoleDetailSelect.init
                       (PaginationView.roles (PaginationView.init (Guild.roles g) author))).
  { cbn in Hsel. now injection Hsel as <-. }
  rewrite Hs, init_options in Ho.
  apply in_map_iff in Ho. destruct Ho as (role & <- & Hr).
  apply filter_In in Hr. destruct Hr as [Hin _].
  apply firstn_In, init_roles_In in Hin. destruct Hin as [Hin Hname].
  exists role. repeat split; try assumption.
  apply callback_found with (role_id := Role.id role).
  - reflexivity.
  - now apply get_role_own_id.
Qed.

Lemma fresh_dashboard_selection_resolves_witness :
  exists role,
    In role (Guild.roles Sample.staffed)
    /\ Role.name role = u "Admin"
    /\ Role.name role <> EVERYONE
    /\ Callbacks.callback {| user_id := 8; guild := Sample.staffed |}
         (Sample.chosen "500")
       = (Sample.chosen "500",
          [SendMessage None (Some (RoleDetailSelect.detail_embed role)) true],
          Returned tt).
Proof.
  assert (Hnd : NoDup (map Role.id (Guild.roles Sample.staffed))).
  { simpl. repeat constructor; simpl; intuition discriminate. }
  exact (fresh_dashboard_selection_resolves Sample.staffed 7 8
           (RoleDetailSelect.init
              (PaginationView.roles
                 (PaginationView.init (Guild.roles Sample.staffed) 7)))
           (RoleDetailSelect.option_of Sample.admin12)
           Hnd eq_refl (or_introl eq_refl)).
Defined.

(* ====================================================================== *)
(** ** A new dashboard and its pages *)

(** X7: a new view is on page 0 and belongs to the user it was made for;
    Previous is disabled, the counter is a disabled button that reads
    "Page 1/{total_pages}", and Next is disabled exactly when the view holds
    from 1 to 10 roles, that is when there is one page: over no role at all
    [total_pages] is 0 and Next stays enabled. *)
Theorem init_buttons (roles0 : list Role.t) (author : Z) :
  let self := PaginationView.init roles0 author in
  let N := len (PaginationView.roles self) in
  PaginationView.current_page self = 0
  /\ PaginationView.author_id self = author
  /\ disabled (PaginationView.prev_btn self) = true
  /\ disabled (PaginationView.page_counter self) = true
  /\ label (PaginationView.page_counter self)
     = u "Page 1/" ++ str_of_int ((N + 9) / 10)
  /\ (disabled (PaginationView.next_btn self) = true <-> 1 <= N <= 10)
  /\ (N = 0 -> disabled (PaginationView.next_btn self) = false).
Proof.
  intros self N.
  destruct (init_fields roles0 author) as (_ & _ & _ & _ & Ht).
  fold self in Ht. fold N in Ht. rewrite ceil_truediv_10 in Ht.
  assert (Hnext : disabled (PaginationView.next_btn self)
                  = (0 =? PaginationView.total_pages self - 1)) by reflexivity.
  assert (Hlabel : label (PaginationView.page_counter self)
                   = u "Page 1/" ++ str_of_int (PaginationView.total_pages self))
    by reflexivity.
  pose proof (len_nonneg (PaginationView.roles self)) as HN. fold N in HN.
  rewrite Hnext, Hlabel, Ht.
  do 5 (split; [reflexivity|]). split.
  - rewrite Z.eqb_eq. Z.to_euclidean_division_equations. lia.
  - intros E. apply Z.eqb_neq. Z.to_euclidean_division_equations. lia.
Qed.

Lemma page_roles_at (self : PaginationView.t) (i : Z) :
  PaginationView.items_per_page self = 10 ->
  0 <= i ->
  PaginationView.page_roles (PaginationView.with_current_page self i)
  = firstn 10 (skipn (Z.to_nat (i * 10)) (PaginationView.roles self)).
Proof.
  intros Hk Hi. unfold PaginationView.page_roles. simpl.
  rewrite Hk, slice_forward by lia.
  replace (i * 10 + 10 - i * 10) with 10 by lia. reflexivity.
Qed.

(** X8: in a view with 10 roles per page and [ceil(len(roles)/10)] pages,
    every page before the last shows exactly 10 roles, the last page shows
    the remaining [len(roles) - 10 * (total_pages - 1)] roles, at least one,
    and a page index at or past [total_pages] shows none. *)
Theorem pages_full_but_last (self : PaginationView.t) :
  PaginationView.items_per_page self = 10 ->
  PaginationView.total_pages self
    = ceil (truediv (len (PaginationView.roles self)) 10) ->
  let N := len (PaginationView.roles self) in
  let total := PaginationView.total_pages self in
  let page i := PaginationView.page_roles (PaginationView.with_current_page self i) in
  (forall i, 0 <= i < total - 1 -> len (page i) = 10)
  /\ (1 <= total -> len (page (total - 1)) = N - 10 * (total - 1)
                    /\ 1 <= len (page (total - 1)) <= 10)
  /\ (forall i, total <= i -> page i = []).
Proof.
  intros Hk Ht N total page.
  rewrite ceil_truediv_10 in Ht. fold N in Ht. fold total in Ht.
  pose proof (len_nonneg (PaginationView.roles self)) as HN. fold N in HN.
  assert (Hlo : 10 * (total - 1) < N \/ (N = 0 /\ total = 0))
    by (rewrite Ht; Z.to_euclidean_division_equations; lia).
  assert (Hhi : N <= 10 * total)
    by (rewrite Ht; Z.to_euclidean_division_equations; lia).
  assert (Hlen : forall i, 0 <= i ->
            len (page i) = Z.min 10 (Z.max 0 (N - i * 10))).
  { intros i Hi. unfold page. rewrite page_roles_at by assumption.
    unfold len. rewrite length_firstn, length_skipn. unfold N, len. lia. }
  split; [|split].
  - intros i Hi. rewrite Hlen by lia. lia.
  - intros H1. rewrite Hlen by lia. lia.
  - intros i Hi.
    assert (H0 : 0 <= i) by lia.
    specialize (Hlen i H0). unfold len in Hlen.
    destruct (page i); [reflexivity | simpl in Hlen; lia].
Qed.

Lemma pages_full_but_last_witness :
  let self := PaginationView.init (Guild.roles Sample.guild23) 7 in
  let N := len (PaginationView.roles self) in
  let total := PaginationView.total_pages self in
  let page i := PaginationView.page_roles (PaginationView.with_current_page self i) in
  N = 23 /\ total = 3
  /\ (forall i, 0 <= i < total - 1 -> len (page i) = 10)
  /\ (1 <= total -> len (page (total - 1)) = N - 10 * (total - 1)
                    /\ 1 <= len (page (total - 1)) <= 10)
  /\ (forall i, total <= i -> page i = []).
Proof.
  intros self N total page.
  split; [reflexivity|]. split; [reflexivity|].
  apply (pages_full_but_last self); reflexivity.
Defined.

(* ====================================================================== *)
(** ** Rendering and turning pages *)

(** The embed of a view that holds a role. *)
Lemma generate_dashboard_embed_some
    (self : PaginationView.t) (g : Guild.t) (now : Q)
    (highest : Role.t) (rest : list Role.t) :
  PaginationView.roles self = highest :: rest ->
  exists embed,
    PaginationView.generate_dashboard_embed self g now = Returned embed
    /\ Embed.fields embed
       = [ {| Embed.fname := u "TOTAL ROLES";
              Embed.fvalue :=
                u "**" ++ str_of_int (len (PaginationView.roles self)) ++ u "**";
              Embed.inline := true |};
           {| Embed.fname := u "HIGHEST ROLE";
              Embed.fvalue := Role.mention highest;
              Embed.inline := true |};
           {| Embed.fname := u "UPDATED";
              Embed.fvalue := u "<t:" ++ str_of_int (int_of_Q now) ++ u ":R>";
              Embed.inline := true |} ]
    /\ Embed.description embed
       = Some ((u "```ansi" ++ nl
                ++ (UIStyles.ANSI_BOLD ++ u "ROLE NAME            │ MEM PREVALENCE"
                    ++ UIStyles.ANSI_RESET)
                ++ nl ++ mul (u "━") 35 ++ nl)
               ++ join nl (map (PaginationView.row_of (Guild.member_count g))
                               (PaginationView.page_roles self))
               ++ nl ++ u "```")
    /\ Embed.color embed = UIStyles.BG_COLOR.
Proof.
  intros H.
  assert (E : index (PaginationView.roles self) 0 = Returned highest)
    by (rewrite H; reflexivity).
  unfold PaginationView.generate_dashboard_embed. rewrite E.
  eexists. split; [reflexivity|]. repeat split.
Qed.

(** X11: rendering raises [IndexError] exactly when the view holds no role.
    Otherwise it returns an embed in the background colour whose description
    is the table, one row for each role of the current page, and whose three
    fields give the number of roles of the view, the mention of its first role
    and the clock reading. *)
Theorem generate_dashboard_embed_cases
    (self : PaginationView.t) (g : Guild.t) (now : Q) :
  match PaginationView.roles self with
  | [] => PaginationView.generate_dashboard_embed self g now = Raised IndexError
  | highest :: _ =>
      exists embed,
        PaginationView.generate_dashboard_embed self g now = Returned embed
        /\ Embed.fields embed
           = [ {| Embed.fname := u "TOTAL ROLES";
                  Embed.fvalue :=
                    u "**" ++ str_of_int (len (PaginationView.roles self)) ++ u "**";
                  Embed.inline := true |};
               {| Embed.fname := u "HIGHEST ROLE";
                  Embed.fvalue := Role.mention highest;
                  Embed.inline := true |};
               {| Embed.fname := u "UPDATED";
                  Embed.fvalue := u "<t:" ++ str_of_int (int_of_Q now) ++ u ":R>";
                  Embed.inline := true |} ]
        /\ Embed.description embed
           = Some ((u "```ansi" ++ nl
                    ++ (UIStyles.ANSI_BOLD
                        ++ u "ROLE NAME            │ MEM PREVALENCE"
                        ++ UIStyles.ANSI_RESET)
                    ++ nl ++ mul (u "━") 35 ++ nl)
                   ++ join nl (map (PaginationView.row_of (Guild.member_count g))
                                   (PaginationView.page_roles self))
                   ++ nl ++ u "```")
        /\ Embed.color embed = UIStyles.BG_COLOR
  end.
Proof.
  destruct (PaginationView.roles self) as [|highest rest] eqn:E.
  - now apply generate_dashboard_embed_empty.
  - destruct (generate_dashboard_embed_some self g now highest rest E)
      as (embed & H1 & H2 & H3 & H4).
    exists embed. rewrite E in H2. auto.
Qed.

Section PageTurn.

Import PaginationView.

Variables (self : PaginationView.t) (interaction : Interaction) (now : Q).
Hypothesis owner : user_id interaction = author_id self.

(** What Next and Previous leave in the view when its owner uses them,
    whether or not rendering then succeeds. *)
Lemma next_btn_final :
  final (Callbacks.next_btn interaction now) self
  = update_buttons (with_current_page self (current_page self + 1)).
Proof.
  unfold final, Callbacks.next_btn, bind, get, modify, lift, await.
  rewrite owner, Z.eqb_refl. cbn [negb].
  now destruct (generate_dashboard_embed _ _ _).
Qed.

Lemma prev_btn_final :
  final (Callbacks.prev_btn interaction now) self
  = update_buttons (with_current_page self (current_page self - 1)).
Proof.
  unfold final, Callbacks.prev_btn, bind, get, modify, lift, await.
  rewrite owner, Z.eqb_refl. cbn [negb].
  now destruct (generate_dashboard_embed _ _ _).
Qed.

Lemma next_btn_run (embed : Embed.t) :
  generate_dashboard_embed
    (update_buttons (with_current_page self (current_page self + 1)))
    (guild interaction) now = Returned embed ->
  Callbacks.next_btn interaction now self
  = (update_buttons (with_current_page self (current_page self + 1)),
     [EditMessage embed
        (update_buttons (with_current_page self (current_page self + 1)))],
     Returned tt).
Proof.
  intros H. unfold Callbacks.next_btn, bind, get, modify, lift, await.
  rewrite owner, Z.eqb_refl. cbn [negb]. now rewrite H.
Qed.

Lemma prev_btn_run (embed : Embed.t) :
  generate_dashboard_embed
    (update_buttons (with_current_page self (current_page self - 1)))
    (guild interaction) now = Returned embed ->
  Callbacks.prev_btn interaction now self
  = (update_buttons (with_current_page self (current_page self - 1)),
     [EditMessage embed
        (update_buttons (with_current_page self (current_page self - 1)))],
     Returned tt).
Proof.
  intros H. unfold Callbacks.prev_btn, bind, get, modify, lift, await.
  rewrite owner, Z.eqb_refl. cbn [negb]. now rewrite H.
Qed.

End PageTurn.

(** X9: the page controls do not clamp and undo each other.  When the owner
    of a dashboard uses Next and then Previous, or Previous and then Next,
    the view is back where [update_buttons] puts it for the page it started
    on: same roles, same page index, buttons and counter for that page. *)
Theorem next_prev_round_trip
    (self : PaginationView.t) (interaction : Interaction) (now now' : Q) :
  user_id interaction = PaginationView.author_id self ->
  final (Callbacks.prev_btn interaction now')
        (final (Callbacks.next_btn interaction now) self)
  = PaginationView.update_buttons self
  /\ final (Callbacks.next_btn interaction now')
           (final (Callbacks.prev_btn interaction now) self)
     = PaginationView.update_buttons self
  /\ PaginationView.current_page (final (Callbacks.next_btn interaction now) self)
     = PaginationView.current_page self + 1
  /\ PaginationView.current_page (final (Callbacks.prev_btn interaction now) self)
     = PaginationView.current_page self - 1.
Proof.
  intros Ho.
  rewrite (next_btn_final self interaction now Ho).
  rewrite (prev_btn_final self interaction now Ho).
  rewrite prev_btn_final by exact Ho.
  rewrite next_btn_final by exact Ho.
  destruct self as [t rs a cp k tp sel pb pc nb].
  unfold PaginationView.update_buttons, PaginationView.with_buttons,
    PaginationView.with_current_page, set_disabled, set_label.
  cbn [PaginationView.timeout PaginationView.roles PaginationView.author_id
       PaginationView.current_page PaginationView.items_per_page
       PaginationView.total_pages PaginationView.select
       PaginationView.prev_btn PaginationView.page_counter
       PaginationView.next_btn label style disabled custom_id].
  replace (cp + 1 - 1) with cp by lia.
  replace (cp - 1 + 1) with cp by lia.
  repeat split.
Qed.

Lemma next_prev_round_trip_witness :
  let self := PaginationView.init (Guild.roles Sample.guild23) 7 in
  let interaction := {| user_id := 7; guild := Sample.guild23 |} in
  final (Callbacks.prev_btn interaction 0)
        (final (Callbacks.next_btn interaction 0) self)
  = PaginationView.update_buttons self
  /\ final (Callbacks.next_btn interaction 0)
           (final (Callbacks.prev_btn interaction 0) self)
     = PaginationView.update_buttons self
  /\ PaginationView.current_page (final (Callbacks.next_btn interaction 0) self)
     = PaginationView.current_page self + 1
  /\ PaginationView.current_page (final (Callbacks.prev_btn interaction 0) self)
     = PaginationView.current_page self - 1.
Proof.
  intros self interaction.
  apply (next_prev_round_trip self interaction 0 0). reflexivity.
Defined.

(** X10: when the owner of a dashboard that holds a role uses Next, the
    callback moves the page index up by one, recomputes the buttons, renders
    that page and asks for exactly one edit of the message, with the new embed
    and the updated view; it sends no message and raises nothing.  Previous
    does the same one page down. *)
Theorem owner_turns_page
    (self : PaginationView.t) (interaction : Interaction) (now : Q) :
  user_id interaction = PaginationView.author_id self ->
  PaginationView.roles self <> [] ->
  let up := PaginationView.update_buttons
              (PaginationView.with_current_page self
                 (PaginationView.current_page self + 1)) in
  let down := PaginationView.update_buttons
                (PaginationView.with_current_page self
                   (PaginationView.current_page self - 1)) in
  exists embed_up embed_down,
    Callbacks.next_btn interaction now self
    = (up, [EditMessage embed_up up], Returned tt)
    /\ PaginationView.generate_dashboard_embed up (guild interaction) now
       = Returned embed_up
    /\ Callbacks.prev_btn interaction now self
       = (down, [EditMessage embed_down down], Returned tt)
    /\ PaginationView.generate_dashboard_embed down (guild interaction) now
       = Returned embed_down.
Proof.
  intros Ho Hne up down.
  destruct (PaginationView.roles self) as [|highest rest] eqn:E; [congruence|].
  destruct (generate_dashboard_embed_some up (guild interaction) now highest rest E)
    as (embed_up & Hup & _).
  destruct (generate_dashboard_embed_some down (guild interaction) now highest rest E)
    as (embed_down & Hdown & _).
  exists embed_up, embed_down.
  split; [exact (next_btn_run self interaction now Ho embed_up Hup)|].
  split; [exact Hup|].
  split; [exact (prev_btn_run self interaction now Ho embed_down Hdown)|].
  exact Hdown.
Qed.

Lemma owner_turns_page_witness :
  let self := PaginationView.init (Guild.roles Sample.guild23) 7 in
  let interaction := {| user_id := 7; guild := Sample.guild23 |} in
  let up := PaginationView.update_buttons
              (PaginationView.with_current_page self
                 (PaginationView.current_page self + 1)) in
  let down := PaginationView.update_buttons
                (PaginationView.with_current_page self
                   (PaginationView.current_page self - 1)) in
  exists embed_up embed_down,
    Callbacks.next_btn interaction 0 self
    = (up, [EditMessage embed_up up], Returned tt)
    /\ PaginationView.generate_dashboard_embed up (guild interaction) 0
       = Returned embed_up
    /\ Callbacks.prev_btn interaction 0 self
       = (down, [EditMessage embed_down down], Returned tt)
    /\ PaginationView.generate_dashboard_embed down (guild interaction) 0
       = Returned embed_down.
Proof.
  intros self interaction.
  apply (owner_turns_page self interaction 0).
  - reflexivity.
  - simpl. discriminate.
Defined.

(** X12: in a guild that has a role not named "@everyone", the command
    raises nothing: it defers, then sends exactly one follow-up that carries
    the dashboard and its view.  The view is on page 0 and owned by the
    invoking user, and the HIGHEST ROLE field mentions the last such role of
    the guild's list, which is ordered lowest first. *)
Theorem roles_command_dashboard
    (interaction : Interaction) (now : Q) (highest : Role.t) (rest : list Role.t) :
  rev (filter is_listed (Guild.roles (guild interaction))) = highest :: rest ->
  let view := PaginationView.init (Guild.roles (guild interaction))
                                  (user_id interaction) in
  exists embed,
    run (roles interaction now) tt
    = ([Defer; FollowupSend None (Some embed) (Some view)], Returned tt)
    /\ PaginationView.generate_dashboard_embed view (guild interaction) now
       = Returned embed
    /\ nth_error (Embed.fields embed) 1
       = Some {| Embed.fname := u "HIGHEST ROLE";
                 Embed.fvalue := Role.mention highest;
                 Embed.inline := true |}
    /\ PaginationView.roles view = highest :: rest
    /\ PaginationView.current_page view = 0
    /\ PaginationView.author_id view = user_id interaction.
Proof.
  intros H view.
  assert (Hr : PaginationView.roles view = highest :: rest).
  { destruct (init_fields (Guild.roles (guild interaction)) (user_id interaction))
      as (Hroles & _). exact (eq_trans Hroles H). }
  destruct (generate_dashboard_embed_some view (guild interaction) now highest rest Hr)
    as (embed & Hgen & Hfields & _).
  exists embed. split; [|split; [exact Hgen|split]].
  - unfold run, roles, bind, await, lift.
    destruct (Guild.roles (guild interaction)) as [|r rs] eqn:E;
      [discriminate H|].
    fold view. now rewrite Hgen.
  - now rewrite Hfields.
  - repeat split. exact Hr.
Qed.

Lemma roles_command_dashboard_witness :
  let interaction := {| user_id := 7; guild := Sample.staffed |} in
  let view := PaginationView.init (Guild.roles Sample.staffed) 7 in
  exists embed,
    run (roles interaction 0) tt
    = ([Defer; FollowupSend None (Some embed) (Some view)], Returned tt)
    /\ PaginationView.generate_dashboard_embed view Sample.staffed 0
       = Returned embed
    /\ nth_error (Embed.fields embed) 1
       = Some {| Embed.fname := u "HIGHEST ROLE";
                 Embed.fvalue := Role.mention Sample.admin12;
                 Embed.inline := true |}
    /\ PaginationView.roles view = [Sample.admin12; Sample.bare]
    /\ PaginationView.current_page view = 0
    /\ PaginationView.author_id view = 7.
Proof.
  intros interaction view.
  apply (roles_command_dashboard interaction 0 Sample.admin12 [Sample.bare]).
  reflexivity.
Defined.

(* ====================================================================== *)
(** ** When the command raises *)




(* ====================================================================== *)
(** ** The selector of a dashboard *)

Lemma filter_all {A} (f : A -> bool) (l : list A) :
  (forall x, In x l -> f x = true) -> filter f l = l.
Proof.
  induction l as [|x l IH]; intros H; simpl; [reflexivity|].
  rewrite (H x) by now left. f_equal. apply IH. intros y Hy. apply H. now right.
Qed.

(** X14: the selector of a new dashboard has one entry for each of the first
    25 roles the dashboard lists (the highest ones), in the order of the list,
    and none for the others: [min(25, len(roles))] entries.  Roles past the
    25th are shown in the table and cannot be inspected. *)
Theorem dashboard_selector_first_25 (roles0 : list Role.t) (author : Z) :
  let self := PaginationView.init roles0 author in
  exists sel,
    PaginationView.select self = Some sel
    /\ RoleDetailSelect.options sel
       = map RoleDetailSelect.option_of (firstn 25 (PaginationView.roles self))
    /\ len (RoleDetailSelect.options sel)
       = Z.min 25 (len (PaginationView.roles self))
    /\ RoleDetailSelect.values sel = [].
Proof.
  intros self.
  exists (RoleDetailSelect.init (PaginationView.roles self)).
  split; [reflexivity|].
  assert (E : RoleDetailSelect.options
                (RoleDetailSelect.init (PaginationView.roles self))
              = map RoleDetailSelect.option_of
                    (firstn 25 (PaginationView.roles self))).
  { rewrite init_options. f_equal. apply filter_all.
    intros r Hr. apply firstn_In in Hr.
    apply init_roles_In in Hr. now apply is_listed_name. }
  split; [exact E|]. split; [|reflexivity].
  rewrite E. unfold len. rewrite length_map, length_firstn. lia.
Qed.

(* ====================================================================== *)
(** ** The names of the permissions *)

Lemma title_from_length (prev_cased : bool) (s : str) :
  List.length (title_from prev_cased s) = List.length s.
Proof.
  revert prev_cased. induction s as [|c s IH]; intros b; simpl; [reflexivity|].
  destruct (is_upper c || is_lower c); simpl; now rewrite IH.
Qed.

Lemma title_from_no_underscore (prev_cased : bool) (s : str) :
  ~ In 95%N s -> ~ In 95%N (title_from prev_cased s).
Proof.
  revert prev_cased. induction s as [|c s IH]; intros b Hs; simpl; [tauto|].
  assert (Hc : c <> 95%N) by (intros ->; apply Hs; now left).
  assert (Hs' : ~ In 95%N s) by (intros H; apply Hs; now right).
  destruct (is_upper c) eqn:Eu; destruct (is_lower c) eqn:El; simpl;
    intros [H | H]; try (now apply (IH _ Hs') in H);
    unfold to_lower, to_upper, is_upper, is_lower in *;
    try rewrite Eu in H; try rewrite El in H;
    destruct b;
    try rewrite Eu in H; try rewrite El in H;
    try congruence;
    repeat match goal with
           | E : (_ && _)%bool = true |- _ => apply andb_true_iff in E; destruct E
           | E : (_ <=? _)%N = true |- _ => apply N.leb_le in E
           end; lia.
Qed.

Lemma replace_no_underscore (s : str) : ~ In 95%N (replace 95%N 32%N s).
Proof.
  unfold replace. induction s as [|c s IH]; simpl; [tauto|].
  intros [H | H]; [|contradiction].
  destruct (c =? 95)%N eqn:E; [discriminate H|].
  apply N.eqb_neq in E. contradiction.
Qed.

(** X15: the permission names of the detail panel are one per enabled flag,
    in the order of the flags; each has as many characters as the flag name
    and contains no underscore. *)
Theorem enabled_names_readable (role : Role.t) :
  let enabled := filter (fun p => snd p) (Role.permissions role) in
  List.length (enabled_names role) = List.length enabled
  /\ Forall2 (fun name p =>
                List.length name = List.length (fst p) /\ ~ In 95%N name)
             (enabled_names role) enabled
  /\ (forall p, In p (Role.permissions role) -> snd p = false ->
        ~ In p enabled).
Proof.
  intros enabled. unfold enabled_names. fold enabled.
  split; [apply length_map|]. split.
  - induction enabled as [|p ps IH]; simpl; constructor; [|exact IH].
    split.
    + unfold title. rewrite title_from_length. unfold replace. apply length_map.
    + apply title_from_no_underscore, replace_no_underscore.
  - intros p _ Hoff Hin. apply filter_In in Hin. destruct Hin as [_ Hon].
    congruence.
Qed.
